(** * mint.py: the submission loop of somnia-moon-pass

    A shallow embedding of [src/mint.py] (its [setup_web3] and [main]) and
    the properties of its iteration control loop.

    The program talks to a blockchain node through web3.py.  The node and
    the library are the environment: they are modelled as a record of
    operations over an arbitrary world type, each returning either a value
    or a raised exception together with the next world.  The program itself
    is written in a small state-and-exception monad whose state holds the
    world, the local variable [iteration] of [main] and the trace of
    observable events (log lines, library calls, sleeps).  The [while] loop
    of [main] takes fuel: a run that exhausts it yields [None]. *)

From Stdlib Require Import ZArith NArith QArith List String Ascii Bool Lia.
From Stdlib Require Import DecimalString.
Import ListNotations.

Local Open Scope string_scope.
Local Open Scope list_scope.
Local Open Scope Z_scope.

(** ** Python values used by the program *)

(** The message of a Python exception, as [str(e)] prints it. *)
Definition exn := string.

(** What a call into the library does: return a value or raise. *)
Inductive result (A : Type) : Type :=
| Ok (a : A)
| Err (e : exn).
Arguments Ok {A} a.
Arguments Err {A} e.

(** [str.lower()] on one character; addresses are ASCII ("0x" and hex
    digits), where it maps 'A'..'Z' to 'a'..'z' and nothing else. *)
Definition lower_ascii (c : ascii) : ascii :=
  let n := nat_of_ascii c in
  if (andb (Nat.leb 65 n) (Nat.leb n 90)) then ascii_of_nat (n + 32) else c.

Fixpoint lower (s : string) : string :=
  match s with
  | EmptyString => EmptyString
  | String c s' => String (lower_ascii c) (lower s')
  end.

(** Python's [<] on [str]: lexicographic, character by character, a proper
    prefix being smaller.  [String.ltb] is that order on bytes. *)
Definition str_lt (a b : string) : bool := String.ltb a b.

(** Python's [!=] on [str]. *)
Definition str_ne (a b : string) : bool := negb (String.eqb a b).

(** [x < y] on exact rationals ([Decimal] against [float] compares the
    exact values). *)
Definition Qltb (x y : Q) : bool := negb (Qle_bool y x).

(** The finite values of a Python [float] (IEEE 754 binary64): an integer
    of at most 53 bits times a power of two whose exponent lies between
    -1074 and 971.  One half and two are such values; one tenth is not
    (the float written 0.1 is 3602879701896397 / 2^55). *)
Definition is_float (q : Q) : Prop :=
  exists m e : Z,
    Z.abs m < 2 ^ 53 /\ -1074 <= e <= 971 /\
    (q == inject_Z m * (2 # 1) ^ e)%Q.

(** [str(n)] for a Python [int]. *)
Definition str_int (n : Z) : string := NilZero.string_of_int (Z.to_int n).

(** ** Configuration (module-level constants of mint.py, lines 17-29)

    The values are those the module computes from the environment when it
    is loaded: the hexadecimal and decimal fields are already integers, the
    two [float] fields are given by their exact (finite) values. *)
Record RunConfig : Type := {
  RPC_URL : string;
  PRIVATE_KEY : string;
  FROM_ADDRESS : string;
  TO_ADDRESS : string;
  CHAIN_ID : Z;
  GAS_LIMIT : Z;
  MAX_FEE_PER_GAS : Z;
  MAX_PRIORITY_FEE_PER_GAS : Z;
  MAX_ITERATIONS : Z;
  DELAY_SECONDS : Q;
  PROXY_URL : option string;
  MIN_BALANCE_SOMI : Q;
  BASE_DATA : string
}.

(** ** Data exchanged with the library *)

(** The dict built at lines 76-85. *)
Record transaction : Type := {
  tx_from : string;
  tx_to : string;
  tx_chainId : Z;
  tx_gas : Z;
  tx_maxFeePerGas : Z;
  tx_maxPriorityFeePerGas : Z;
  tx_nonce : Z;
  tx_data : string
}.

(** The dict passed to [estimate_gas] at lines 92-96. *)
Record call_request : Type := {
  call_from : string;
  call_to : string;
  call_data : string
}.

(** [LocalAccount]: the program reads its [address]. *)
Record account : Type := { address : string }.

(** [SignedTransaction]: the program reads its [raw_transaction]. *)
Record signed_transaction : Type := { raw_transaction : string }.

(** A transaction receipt: the program reads [blockNumber] and [status]. *)
Record receipt : Type := { blockNumber : Z; status : Z }.

(** ** Observable events *)

(** colorama's [Fore] colours used by the program. *)
Inductive color : Type := WHITE | GREEN | RED | CYAN | YELLOW | MAGENTA.

(** One constructor per [log(...)] call site of mint.py, carrying the
    values its f-string interpolates. *)
Inductive message : Type :=
| SetupOk                          (* line 53 *)
| SetupCrashed (e : exn)           (* line 55 *)
| IterationStart (k n : Z)         (* line 61: Iteration {k}/{n} *)
| LowBalance (balance_eth min : Q) (* line 68 *)
| BalanceOk (balance_eth : Q)      (* line 70 *)
| BalanceCheckFailed (e : exn)     (* line 72 *)
| BuildFailed (e : exn)            (* line 87 *)
| GasWarning (estimated limit : Z) (* line 98 *)
| GasEstimationFailed (e : exn)    (* line 100 *)
| SigningFailed (e : exn)          (* line 107 *)
| TxSent (tx_hash : string)        (* line 113 *)
| Mined (block : Z)                (* line 117 *)
| MintSuccessful                   (* line 119 *)
| TxFailed                         (* line 122 *)
| TxSendFailed (e : exn)           (* line 124 *)
| Chilling (delay : Q)             (* line 129 *)
| HitMax (n : Z)                   (* line 133 *)
| StoppedEarly.                    (* line 135 *)

(** The pieces of an f-string: literal text and interpolated values, by
    the way each is formatted. *)
Inductive piece : Type :=
| Lit (s : string)
| IntP (n : Z)          (* {n} for an int *)
| StrP (s : string)     (* {s} for a str or an exception *)
| HexP (b : string)     (* {w3.to_hex(b)} *)
| Fixed4P (q : Q)       (* {q:.4f} *)
| FloatP (q : Q).       (* {q} for a float *)

(** The f-string of each log call. *)
Definition fstring (m : message) : list piece :=
  match m with
  | SetupOk => [Lit "Web3 connected, account ready. Time to mint!"]
  | SetupCrashed e => [Lit "Setup crashed: "; StrP e]
  | IterationStart k n =>
      [Lit "Iteration "; IntP k; Lit "/"; IntP n; Lit ": Trying mint ..."]
  | LowBalance b m =>
      [Lit "Low balance ("; Fixed4P b; Lit " SOMI < "; FloatP m;
       Lit " SOMI). Stopping."]
  | BalanceOk b => [Lit "Balance: "; Fixed4P b; Lit " SOMI. Good to go."]
  | BalanceCheckFailed e =>
      [Lit "Balance check failed: "; StrP e; Lit ". Gracefully stopping."]
  | BuildFailed e =>
      [Lit "Couldn’t build tx: "; StrP e; Lit ". Gracefully stopping."]
  | GasWarning g l =>
      [Lit "Gas warning: Estimate "; IntP g; Lit " > limit "; IntP l; Lit "."]
  | GasEstimationFailed e =>
      [Lit "Gas estimation failed: "; StrP e; Lit ". Gracefully stopping."]
  | SigningFailed e =>
      [Lit "Signing failed: "; StrP e; Lit ". Gracefully stopping."]
  | TxSent h => [Lit "Tx sent! Hash: "; HexP h]
  | Mined b => [Lit "Mined in block "; IntP b]
  | MintSuccessful => [Lit "Mint successful!"]
  | TxFailed => [Lit "Tx failed. Gracefully stopping."]
  | TxSendFailed e =>
      [Lit "Tx send failed: "; StrP e; Lit ". Gracefully stopping."]
  | Chilling d => [Lit "Chilling for "; FloatP d; Lit "s..."]
  | HitMax n => [Lit "Hit max iterations ("; IntP n; Lit "). Done!"]
  | StoppedEarly => [Lit "Stopped early—check errors above."]
  end.

(** The text of an f-string made of literals, ints and strs; [None] when
    it has another field (the formatting of floats and of hashes is not
    modelled). *)
Fixpoint plain_text (ps : list piece) : option string :=
  match ps with
  | [] => Some EmptyString
  | p :: ps' =>
      match plain_text ps' with
      | None => None
      | Some rest =>
          match p with
          | Lit s => Some (s ++ rest)%string
          | IntP n => Some (str_int n ++ rest)%string
          | StrP s => Some (s ++ rest)%string
          | HexP _ => None
          | Fixed4P _ => None
          | FloatP _ => None
          end
      end
  end.

(** A call into the library, with its arguments. *)
Inductive call : Type :=
| IsConnected
| FromKey (key : string)
| GetBalance (addr : string)
| GetTransactionCount (addr : string)
| EstimateGas (c : call_request)
| SignTransaction (tx : transaction) (key : string)
| SendRawTransaction (raw : string)
| WaitForTransactionReceipt (tx_hash : string) (timeout : Z).

Inductive event : Type :=
| Log (c : color) (m : message)
| Call (c : call)
| Sleep (seconds : Q).

(** ** The chain client

    web3.py and the node behind it.  [W] is the state of that world; every
    operation answers with a value or an exception and leaves the world in
    a new state.  [from_key] and [from_wei] are local computations of the
    library and do not touch the world. *)
Record ChainClient (W : Type) : Type := {
  web3_version : string;                          (* web3.__version__ *)
  is_connected : W -> result bool * W;
  from_key : string -> result account;
  from_wei : Z -> result Q;                       (* w3.from_wei(_, 'ether') *)
  get_balance : string -> W -> result Z * W;
  get_transaction_count : string -> W -> result Z * W;
  estimate_gas : call_request -> W -> result Z * W;
  sign_transaction :
    transaction -> string -> W -> result signed_transaction * W;
  send_raw_transaction : string -> W -> result string * W;
  wait_for_transaction_receipt : string -> Z -> W -> result receipt * W
}.
Arguments web3_version {W} _.
Arguments is_connected {W} _ _.
Arguments from_key {W} _ _.
Arguments from_wei {W} _ _.
Arguments get_balance {W} _ _ _.
Arguments get_transaction_count {W} _ _ _.
Arguments estimate_gas {W} _ _ _.
Arguments sign_transaction {W} _ _ _ _.
Arguments send_raw_transaction {W} _ _ _.
Arguments wait_for_transaction_receipt {W} _ _ _ _.

(** ** The state and exception monad of [main] *)

(** The state of a run: the world, the local variable [iteration] and the
    events so far, oldest first. *)
Record state (W : Type) : Type := {
  world : W;
  iteration : Z;
  trace : list event
}.
Arguments world {W} _.
Arguments iteration {W} _.
Arguments trace {W} _.

(** How a block of [main] ends: it falls through with a value, an
    exception propagates, or a [return] statement leaves [main]. *)
Inductive outcome (A : Type) : Type :=
| Value (a : A)
| Raise (e : exn)
| Return.
Arguments Value {A} a.
Arguments Raise {A} e.
Arguments Return {A}.

(** [None] is a run whose loop used up its fuel. *)
Definition M (W A : Type) : Type := state W -> option (outcome A * state W).

Section Monad.
Context {W : Type}.

Definition ret {A} (a : A) : M W A := fun s => Some (Value a, s).

Definition bind {A B} (m : M W A) (f : A -> M W B) : M W B :=
  fun s =>
    match m s with
    | None => None
    | Some (Value a, s') => f a s'
    | Some (Raise e, s') => Some (Raise e, s')
    | Some (Return, s') => Some (Return, s')
    end.

(** [raise Exception(e)] *)
Definition raise {A} (e : exn) : M W A := fun s => Some (Raise e, s).

(** [return] *)
Definition return_ {A} : M W A := fun s => Some (Return, s).

(** [try: m  except Exception as e: h e] *)
Definition try_except {A} (m : M W A) (h : exn -> M W A) : M W A :=
  fun s =>
    match m s with
    | Some (Raise e, s') => h e s'
    | r => r
    end.

Definition emit (ev : event) : M W unit :=
  fun s =>
    Some (Value tt,
          {| world := world s; iteration := iteration s;
             trace := trace s ++ [ev] |}).

(** [log(message, color)]: one line on the console (the time stamp it
    prints is not part of the event). *)
Definition log (m : message) (c : color) : M W unit := emit (Log c m).

(** [await asyncio.sleep(seconds)] *)
Definition sleep (seconds : Q) : M W unit := emit (Sleep seconds).

(** A call into the library that talks to the node. *)
Definition perform {A} (c : call) (op : W -> result A * W) : M W A :=
  fun s =>
    let (r, w') := op (world s) in
    let s' := {| world := w'; iteration := iteration s;
                 trace := trace s ++ [Call c] |} in
    match r with
    | Ok a => Some (Value a, s')
    | Err e => Some (Raise e, s')
    end.

(** A call into the library that computes locally. *)
Definition compute {A} (r : result A) : M W A :=
  fun s =>
    match r with
    | Ok a => Some (Value a, s)
    | Err e => Some (Raise e, s)
    end.

Definition get_iteration : M W Z := fun s => Some (Value (iteration s), s).

Definition set_iteration (i : Z) : M W unit :=
  fun s =>
    Some (Value tt,
          {| world := world s; iteration := i; trace := trace s |}).

(** [while cond: body], at most [fuel] passes. *)
Fixpoint while (fuel : nat) (cond : state W -> bool) (body : M W unit)
  (s : state W) {struct fuel} : option (outcome unit * state W) :=
  if cond s then
    match fuel with
    | O => None
    | S fuel' => bind body (fun _ => while fuel' cond body) s
    end
  else Some (Value tt, s).
End Monad.

Declare Scope mint_scope.
Delimit Scope mint_scope with mint.
Notation "x <- c1 ;; c2" := (bind c1 (fun x => c2))
  (at level 61, c1 at next level, right associativity) : mint_scope.
Notation "c1 ;; c2" := (bind c1 (fun _ => c2))
  (at level 61, right associativity) : mint_scope.
Local Open Scope mint_scope.

(** ** The program *)

Section Mint.
Variable cfg : RunConfig.
Context {W : Type}.
Variable w3 : ChainClient W.

(** [setup_web3] (lines 38-47).  It returns the pair [(w3, account)];
    [w3] is the client itself. *)
Definition setup_web3 : M W account :=
  if str_lt (web3_version w3) "6.0.0" then
    raise "Need web3.py 6.0.0+. Run 'pip install web3>=6.0.0'."
  else
    connected <- perform IsConnected (is_connected w3) ;;
    if negb connected then
      raise "RPC connection failed. Check URL or network."
    else
      account <- (emit (Call (FromKey (PRIVATE_KEY cfg))) ;;
                  compute (from_key w3 (PRIVATE_KEY cfg))) ;;
      if str_ne (lower (address account)) (lower (FROM_ADDRESS cfg)) then
        raise "Private key and from address don’t match."
      else ret account.

(** Lines 64-72. *)
Definition balance_check : M W unit :=
  try_except
    (balance <- perform (GetBalance (FROM_ADDRESS cfg))
                  (get_balance w3 (FROM_ADDRESS cfg)) ;;
     balance_eth <- compute (from_wei w3 balance) ;;
     if Qltb balance_eth (MIN_BALANCE_SOMI cfg) then
       (log (LowBalance balance_eth (MIN_BALANCE_SOMI cfg)) YELLOW ;;
        return_)
     else log (BalanceOk balance_eth) WHITE)
    (fun e => log (BalanceCheckFailed e) RED).

(** Lines 75-88. *)
Definition build_tx (current_data : string) : M W transaction :=
  try_except
    (nonce <- perform (GetTransactionCount (FROM_ADDRESS cfg))
                (get_transaction_count w3 (FROM_ADDRESS cfg)) ;;
     ret {| tx_from := FROM_ADDRESS cfg;
            tx_to := TO_ADDRESS cfg;
            tx_chainId := CHAIN_ID cfg;
            tx_gas := GAS_LIMIT cfg;
            tx_maxFeePerGas := MAX_FEE_PER_GAS cfg;
            tx_maxPriorityFeePerGas := MAX_PRIORITY_FEE_PER_GAS cfg;
            tx_nonce := nonce;
            tx_data := current_data |})
    (fun e => log (BuildFailed e) RED ;; return_).

(** Lines 91-101. *)
Definition gas_estimate (current_data : string) : M W unit :=
  let c := {| call_from := FROM_ADDRESS cfg;
              call_to := TO_ADDRESS cfg;
              call_data := current_data |} in
  try_except
    (estimated_gas <- perform (EstimateGas c) (estimate_gas w3 c) ;;
     if estimated_gas >? GAS_LIMIT cfg then
       log (GasWarning estimated_gas (GAS_LIMIT cfg)) YELLOW
     else ret tt)
    (fun e => log (GasEstimationFailed e) YELLOW ;; return_).

(** Lines 104-108. *)
Definition sign_tx (t : transaction) : M W signed_transaction :=
  try_except
    (perform (SignTransaction t (PRIVATE_KEY cfg))
       (sign_transaction w3 t (PRIVATE_KEY cfg)))
    (fun e => log (SigningFailed e) RED ;; return_).

(** Lines 111-125. *)
Definition send_tx (signed_txn : signed_transaction) : M W unit :=
  try_except
    (tx_hash <- perform (SendRawTransaction (raw_transaction signed_txn))
                  (send_raw_transaction w3 (raw_transaction signed_txn)) ;;
     log (TxSent tx_hash) GREEN ;;
     receipt <- perform (WaitForTransactionReceipt tx_hash 300)
                  (wait_for_transaction_receipt w3 tx_hash 300) ;;
     log (Mined (blockNumber receipt)) CYAN ;;
     if status receipt =? 1 then
       (log MintSuccessful GREEN ;;
        i <- get_iteration ;;
        set_iteration (i + 1))
     else log TxFailed RED)
    (fun e => log (TxSendFailed e) RED ;; return_).

(** Lines 128-130. *)
Definition pause : M W unit :=
  i <- get_iteration ;;
  if i <? MAX_ITERATIONS cfg then
    (log (Chilling (DELAY_SECONDS cfg)) WHITE ;;
     sleep (DELAY_SECONDS cfg))
  else ret tt.

(** The body of the [while] loop (lines 60-130). *)
Definition iteration_body : M W unit :=
  let current_data := BASE_DATA cfg in
  i <- get_iteration ;;
  log (IterationStart (i + 1) (MAX_ITERATIONS cfg)) CYAN ;;
  balance_check ;;
  t <- build_tx current_data ;;
  gas_estimate current_data ;;
  signed_txn <- sign_tx t ;;
  send_tx signed_txn ;;
  pause.

(** The loop condition of line 59. *)
Definition loop_cond (s : state W) : bool :=
  iteration s <? MAX_ITERATIONS cfg.

(** Lines 58-130. *)
Definition mint_loop (fuel : nat) : M W unit :=
  set_iteration 0 ;;
  while fuel loop_cond iteration_body.

(** Lines 132-135. *)
Definition summary : M W unit :=
  i <- get_iteration ;;
  if i >=? MAX_ITERATIONS cfg then log (HitMax (MAX_ITERATIONS cfg)) MAGENTA
  else log StoppedEarly MAGENTA.

(** Lines 51-56. *)
Definition setup : M W account :=
  try_except
    (r <- setup_web3 ;;
     log SetupOk GREEN ;;
     ret r)
    (fun e => log (SetupCrashed e) RED ;; return_).

(** [main] (lines 50-135). *)
Definition main (fuel : nat) : M W unit :=
  setup ;;
  mint_loop fuel ;;
  summary.

(** A run of the program from a world, with an empty trace. *)
Definition initial (w : W) : state W :=
  {| world := w; iteration := 0; trace := [] |}.

Definition run (fuel : nat) (w : W) : option (outcome unit * state W) :=
  main fuel (initial w).
End Mint.

(** ** Stub clients

    Deterministic chain clients for concrete runs.  The world of a scripted
    client is the number of the pass in progress: [get_balance], the first
    call of every pass, moves it on; the answers of pass [k] are [script k]. *)
Module Stubs.

Record answers : Type := {
  a_balance : result Z;
  a_nonce : result Z;
  a_gas : result Z;
  a_signed : result signed_transaction;
  a_hash : result string;
  a_receipt : result receipt
}.

(** One ether is 10^18 wei. *)
Definition ether (wei : Z) : result Q := Ok (wei # 1000000000000000000).

Definition scripted (version : string) (connected : result bool)
  (acct : result account) (script : nat -> answers) : ChainClient nat :=
  {| web3_version := version;
     is_connected := fun k => (connected, k);
     from_key := fun _ => acct;
     from_wei := ether;
     get_balance := fun _ k => (a_balance (script (S k)), S k);
     get_transaction_count := fun _ k => (a_nonce (script k), k);
     estimate_gas := fun _ k => (a_gas (script k), k);
     sign_transaction := fun _ _ k => (a_signed (script k), k);
     send_raw_transaction := fun _ k => (a_hash (script k), k);
     wait_for_transaction_receipt := fun _ _ k => (a_receipt (script k), k)
  |}.

(** A pass in which every operation succeeds: 5 ether, an estimate under
    the limit, a receipt with status 1.  ([config] below has a minimum
    balance of 0.5 and a delay of 2.0, both values of a [float].) *)
Definition fine (k : nat) : answers :=
  {| a_balance := Ok 5000000000000000000;
     a_nonce := Ok (Z.of_nat k - 1);
     a_gas := Ok 150000;
     a_signed := Ok {| raw_transaction := "0x02f8" |};
     a_hash := Ok "0xabcd";
     a_receipt := Ok {| blockNumber := 1000 + Z.of_nat k; status := 1 |} |}.

Definition the_account : account :=
  {| address := "0xAbCd000000000000000000000000000000001234" |}.

Definition config (n : Z) : RunConfig :=
  {| RPC_URL := "https://rpc.example";
     PRIVATE_KEY := "0x01";
     FROM_ADDRESS := "0xabcd000000000000000000000000000000001234";
     TO_ADDRESS := "0x5555000000000000000000000000000000005555";
     CHAIN_ID := 5031;
     GAS_LIMIT := 200000;
     MAX_FEE_PER_GAS := 6000000000;
     MAX_PRIORITY_FEE_PER_GAS := 1000000000;
     MAX_ITERATIONS := n;
     DELAY_SECONDS := 2 # 1;
     PROXY_URL := None;
     MIN_BALANCE_SOMI := 1 # 2;
     BASE_DATA := "0x1249c58b" |}.

(** The transaction and the call that the program builds from
    [config n], whatever [n]. *)
Definition tx (nonce : Z) : transaction :=
  {| tx_from := "0xabcd000000000000000000000000000000001234";
     tx_to := "0x5555000000000000000000000000000000005555";
     tx_chainId := 5031;
     tx_gas := 200000;
     tx_maxFeePerGas := 6000000000;
     tx_maxPriorityFeePerGas := 1000000000;
     tx_nonce := nonce;
     tx_data := "0x1249c58b" |}.

Definition gas_call : call_request :=
  {| call_from := "0xabcd000000000000000000000000000000001234";
     call_to := "0x5555000000000000000000000000000000005555";
     call_data := "0x1249c58b" |}.

(** The client of a healthy node. *)
Definition healthy : ChainClient nat :=
  scripted "6.11.3" (Ok true) (Ok the_account) fine.

(** The same node behind a client whose world is a binary counter. *)
Definition healthy_N : ChainClient N :=
  {| web3_version := "6.11.3";
     is_connected := fun k => (Ok true, k);
     from_key := fun _ => Ok the_account;
     from_wei := ether;
     get_balance := fun _ k => (a_balance (fine (S (N.to_nat k))), N.succ k);
     get_transaction_count := fun _ k => (a_nonce (fine (N.to_nat k)), k);
     estimate_gas := fun _ k => (a_gas (fine (N.to_nat k)), k);
     sign_transaction := fun _ _ k => (a_signed (fine (N.to_nat k)), k);
     send_raw_transaction := fun _ k => (a_hash (fine (N.to_nat k)), k);
     wait_for_transaction_receipt :=
       fun _ _ k => (a_receipt (fine (N.to_nat k)), k)
  |}.

(** Scripts that depart from [fine] in one answer. *)
Definition with_balance (r : result Z) (a : answers) : answers :=
  {| a_balance := r; a_nonce := a_nonce a; a_gas := a_gas a;
     a_signed := a_signed a; a_hash := a_hash a;
     a_receipt := a_receipt a |}.

Definition with_nonce (r : result Z) (a : answers) : answers :=
  {| a_balance := a_balance a; a_nonce := r; a_gas := a_gas a;
     a_signed := a_signed a; a_hash := a_hash a;
     a_receipt := a_receipt a |}.

Definition with_gas (r : result Z) (a : answers) : answers :=
  {| a_balance := a_balance a; a_nonce := a_nonce a; a_gas := r;
     a_signed := a_signed a; a_hash := a_hash a;
     a_receipt := a_receipt a |}.

Definition with_receipt (r : result receipt) (a : answers) : answers :=
  {| a_balance := a_balance a; a_nonce := a_nonce a; a_gas := a_gas a;
     a_signed := a_signed a; a_hash := a_hash a;
     a_receipt := r |}.

(** The script that answers [a] in pass [k] and [fine] in the others. *)
Definition except_in (k : nat) (a : answers) (j : nat) : answers :=
  if Nat.eqb j k then a else fine j.

Definition node (script : nat -> answers) : ChainClient nat :=
  scripted "6.11.3" (Ok true) (Ok the_account) script.

(** The balance query raises in the first pass. *)
Definition balance_outage : ChainClient nat :=
  node (except_in 1 (with_balance (Err "502 Server Error") (fine 1))).

(** The first transaction is mined with status 0. *)
Definition first_reverts : ChainClient nat :=
  node (except_in 1
          (with_receipt (Ok {| blockNumber := 1001; status := 0 |})
             (fine 1))).

(** Every transaction is mined with status 0. *)
Definition always_reverts : ChainClient nat :=
  node (fun k =>
          with_receipt
            (Ok {| blockNumber := 1000 + Z.of_nat k; status := 0 |})
            (fine k)).

(** The nonce fetch raises in the second pass. *)
Definition nonce_outage : ChainClient nat :=
  node (except_in 2 (with_nonce (Err "Read timed out") (fine 2))).

(** In the second pass the balance is 0.05 ether. *)
Definition runs_dry : ChainClient nat :=
  node (except_in 2 (with_balance (Ok 50000000000000000) (fine 2))).

(** In the first pass the estimate is above the limit of [config]. *)
Definition costly : ChainClient nat :=
  node (except_in 1 (with_gas (Ok 250000) (fine 1))).

(** The endpoint does not answer. *)
Definition unreachable : ChainClient nat :=
  scripted "6.11.3" (Ok false) (Ok the_account) fine.

(** web3.py 10.0.0 in front of a healthy node. *)
Definition version_ten : ChainClient nat :=
  scripted "10.0.0" (Ok true) (Ok the_account) fine.

End Stubs.

(** ** Observations on a trace *)

(** The log line of a counted success (line 119). *)
Definition is_success (e : event) : bool :=
  match e with Log _ MintSuccessful => true | _ => false end.

(** The log line that opens a pass of the loop (line 61). *)
Definition is_iteration_start (e : event) : bool :=
  match e with Log _ (IterationStart _ _) => true | _ => false end.

(** A broadcast (line 112). *)
Definition is_broadcast (e : event) : bool :=
  match e with Call (SendRawTransaction _) => true | _ => false end.

(** The calls that build, sign, send and confirm a transaction. *)
Definition is_transaction_call (e : event) : bool :=
  match e with
  | Call (GetTransactionCount _) => true
  | Call (SignTransaction _ _) => true
  | Call (SendRawTransaction _) => true
  | Call (WaitForTransactionReceipt _ _) => true
  | _ => false
  end.

(** The calls of [setup_web3]. *)
Definition is_setup_call (e : event) : bool :=
  match e with
  | Call IsConnected => true
  | Call (FromKey _) => true
  | _ => false
  end.

(** The terminal summary lines (lines 133 and 135). *)
Definition is_summary (e : event) : bool :=
  match e with
  | Log _ (HitMax _) => true
  | Log _ StoppedEarly => true
  | _ => false
  end.

(** The log lines that announce a stop, and the success line. *)
Definition is_stop_or_success (e : event) : bool :=
  match e with
  | Log _ (SetupCrashed _) => true
  | Log _ (LowBalance _ _) => true
  | Log _ (BalanceCheckFailed _) => true
  | Log _ (BuildFailed _) => true
  | Log _ (GasEstimationFailed _) => true
  | Log _ (SigningFailed _) => true
  | Log _ TxFailed => true
  | Log _ (TxSendFailed _) => true
  | Log _ (HitMax _) => true
  | Log _ StoppedEarly => true
  | Log _ MintSuccessful => true
  | _ => false
  end.

(** How many events of a trace satisfy [p]. *)
Definition count (p : event -> bool) (tr : list event) : Z :=
  Z.of_nat (List.length (filter p tr)).

(** What a finished run shows: how [main] ended, the success counter and
    the events. *)
Definition observable {W : Type} (r : outcome unit * state W)
  : outcome unit * Z * list event :=
  (fst r, iteration (snd r), trace (snd r)).

(** ** Where a run stands *)

Section Runs.
Variable cfg : RunConfig.
Context {W : Type}.
Variable w3 : ChainClient W.

(** The state in which the loop is entered: line 58 sets the counter. *)
Definition loop_entry (s : state W) : state W :=
  {| world := world s; iteration := 0; trace := trace s |}.

(** [n] whole passes from the head of the loop: each finds the loop
    condition true and falls through to the end of the body. *)
Fixpoint run_passes (n : nat) (s : state W) : option (state W) :=
  match n with
  | O => Some s
  | S n' =>
      if loop_cond cfg s then
        match iteration_body cfg w3 s with
        | Some (Value tt, s1) => run_passes n' s1
        | _ => None
        end
      else None
  end.

(** The state in which the run from world [w0] starts its pass number
    [n + 1]: setup went through, [n] whole passes followed and the loop
    condition holds again. *)
Definition pass_state (w0 : W) (n : nat) : option (state W) :=
  match setup cfg w3 (initial w0) with
  | Some (Value _, s0) =>
      match run_passes n (loop_entry s0) with
      | Some s => if loop_cond cfg s then Some s else None
      | None => None
      end
  | _ => None
  end.

(** The pass that starts in [s] logs itself as iteration
    [iteration s + 1]. *)
Definition starts_pass (w0 : W) (n : nat) (s : state W) : Prop :=
  pass_state w0 n = Some s.

(** What holds each time the loop is at its head: no summary line has
    been logged, the counter is the number of successes logged, and it
    has not passed the maximum. *)
Definition loop_invariant (s : state W) : Prop :=
  count is_summary (trace s) = 0 /\
  count is_success (trace s) = iteration s /\
  iteration s <= Z.max 0 (MAX_ITERATIONS cfg).

(** The pass up to and including each of its steps. *)
Definition upto_balance_check : M W unit :=
  i <- get_iteration ;;
  log (IterationStart (i + 1) (MAX_ITERATIONS cfg)) CYAN ;;
  balance_check cfg w3.

Definition upto_build_tx : M W transaction :=
  upto_balance_check ;;
  build_tx cfg w3 (BASE_DATA cfg).

Definition upto_gas_estimate : M W transaction :=
  t <- upto_build_tx ;;
  gas_estimate cfg w3 (BASE_DATA cfg) ;;
  ret t.

Definition upto_sign_tx : M W signed_transaction :=
  t <- upto_gas_estimate ;;
  sign_tx cfg w3 t.

(** [s1] is [s] after a part of a pass that has logged the number of
    the pass, then neither another pass nor a success nor a summary line
    nor a broadcast, and has left the counter alone. *)
Definition quiet_prefix (s s1 : state W) : Prop :=
  exists mid,
    trace s1 =
      trace s ++
      Log CYAN (IterationStart (iteration s + 1) (MAX_ITERATIONS cfg)) :: mid /\
    count is_iteration_start mid = 0 /\
    count is_success mid = 0 /\
    count is_summary mid = 0 /\
    count is_broadcast mid = 0 /\
    iteration s1 = iteration s.

(** The operations after the balance check that end the run when they
    raise: each has a handler that logs and returns. *)
Inductive stage : Type := NonceFetch | Signing | Broadcast | ReceiptWait.

(** The line logged when the operation raises. *)
Definition failure_line (st : stage) (e : exn) : event :=
  match st with
  | NonceFetch => Log RED (BuildFailed e)
  | Signing => Log RED (SigningFailed e)
  | Broadcast => Log RED (TxSendFailed e)
  | ReceiptWait => Log RED (TxSendFailed e)
  end.

(** In the pass that starts in [s], the run comes to the operation and
    the operation raises [e]. *)
Definition raises_in_pass (s : state W) (st : stage) (e : exn) : Prop :=
  match st with
  | NonceFetch =>
      exists s1,
        upto_balance_check s = Some (Value tt, s1) /\
        fst (get_transaction_count w3 (FROM_ADDRESS cfg) (world s1)) = Err e
  | Signing =>
      exists t s1,
        upto_gas_estimate s = Some (Value t, s1) /\
        fst (sign_transaction w3 t (PRIVATE_KEY cfg) (world s1)) = Err e
  | Broadcast =>
      exists sg s1,
        upto_sign_tx s = Some (Value sg, s1) /\
        fst (send_raw_transaction w3 (raw_transaction sg) (world s1)) = Err e
  | ReceiptWait =>
      exists sg s1 h w,
        upto_sign_tx s = Some (Value sg, s1) /\
        send_raw_transaction w3 (raw_transaction sg) (world s1) = (Ok h, w) /\
        fst (wait_for_transaction_receipt w3 h 300 w) = Err e
  end.

(** A client all of whose operations succeed, in every world: setup goes
    through, the balance is at or above the minimum and every receipt has
    status 1. *)
Definition always_succeeds : Prop :=
  str_lt (web3_version w3) "6.0.0" = false /\
  (forall w, fst (is_connected w3 w) = Ok true) /\
  (exists a, from_key w3 (PRIVATE_KEY cfg) = Ok a /\
             lower (address a) = lower (FROM_ADDRESS cfg)) /\
  (forall w, exists b q,
      fst (get_balance w3 (FROM_ADDRESS cfg) w) = Ok b /\
      from_wei w3 b = Ok q /\
      Qltb q (MIN_BALANCE_SOMI cfg) = false) /\
  (forall w, exists n,
      fst (get_transaction_count w3 (FROM_ADDRESS cfg) w) = Ok n) /\
  (forall c w, exists g, fst (estimate_gas w3 c w) = Ok g) /\
  (forall t k w, exists sg, fst (sign_transaction w3 t k w) = Ok sg) /\
  (forall raw w, exists h, fst (send_raw_transaction w3 raw w) = Ok h) /\
  (forall h t w, exists r,
      fst (wait_for_transaction_receipt w3 h t w) = Ok r /\ status r = 1).

(** A full iteration, as the specification lays it out (balance check,
    build, gas estimate, sign, broadcast, confirm, pause), written against
    the answers of the client: from world [w] every step is made once, in
    this order, each on the world the step before left and with the value
    the step before produced; the balance is at or above the minimum and
    the receipt has status 1.  [evs] are the events of the iteration
    numbered [k], and [w'] is the world it leaves. *)
Definition full_iteration (w : W) (k : Z) (evs : list event) (w' : W)
  : Prop :=
  exists b w1 q n w2 g w4 sg w5 h w6 rc,
    get_balance w3 (FROM_ADDRESS cfg) w = (Ok b, w1) /\
    from_wei w3 b = Ok q /\
    Qltb q (MIN_BALANCE_SOMI cfg) = false /\
    get_transaction_count w3 (FROM_ADDRESS cfg) w1 = (Ok n, w2) /\
    estimate_gas w3
      {| call_from := FROM_ADDRESS cfg; call_to := TO_ADDRESS cfg;
         call_data := BASE_DATA cfg |} w2 = (Ok g, w4) /\
    sign_transaction w3
      {| tx_from := FROM_ADDRESS cfg;
         tx_to := TO_ADDRESS cfg;
         tx_chainId := CHAIN_ID cfg;
         tx_gas := GAS_LIMIT cfg;
         tx_maxFeePerGas := MAX_FEE_PER_GAS cfg;
         tx_maxPriorityFeePerGas := MAX_PRIORITY_FEE_PER_GAS cfg;
         tx_nonce := n;
         tx_data := BASE_DATA cfg |} (PRIVATE_KEY cfg) w4 = (Ok sg, w5) /\
    send_raw_transaction w3 (raw_transaction sg) w5 = (Ok h, w6) /\
    wait_for_transaction_receipt w3 h 300 w6 = (Ok rc, w') /\
    status rc = 1 /\
    evs =
      [Log CYAN (IterationStart k (MAX_ITERATIONS cfg));
       Call (GetBalance (FROM_ADDRESS cfg));
       Log WHITE (BalanceOk q);
       Call (GetTransactionCount (FROM_ADDRESS cfg));
       Call (EstimateGas
               {| call_from := FROM_ADDRESS cfg; call_to := TO_ADDRESS cfg;
                  call_data := BASE_DATA cfg |})] ++
      (if g >? GAS_LIMIT cfg
       then [Log YELLOW (GasWarning g (GAS_LIMIT cfg))] else []) ++
      [Call (SignTransaction
               {| tx_from := FROM_ADDRESS cfg;
                  tx_to := TO_ADDRESS cfg;
                  tx_chainId := CHAIN_ID cfg;
                  tx_gas := GAS_LIMIT cfg;
                  tx_maxFeePerGas := MAX_FEE_PER_GAS cfg;
                  tx_maxPriorityFeePerGas := MAX_PRIORITY_FEE_PER_GAS cfg;
                  tx_nonce := n;
                  tx_data := BASE_DATA cfg |} (PRIVATE_KEY cfg));
       Call (SendRawTransaction (raw_transaction sg));
       Log GREEN (TxSent h);
       Call (WaitForTransactionReceipt h 300);
       Log CYAN (Mined (blockNumber rc));
       Log GREEN MintSuccessful] ++
      (if k <? MAX_ITERATIONS cfg
       then [Log WHITE (Chilling (DELAY_SECONDS cfg));
             Sleep (DELAY_SECONDS cfg)]
       else []).

(** [m] full iterations in a row, numbered from [k], from world [w] to
    world [w']: [tr] is their events, one iteration after the other. *)
Fixpoint full_iterations (m : nat) (w : W) (k : Z) (tr : list event)
  (w' : W) : Prop :=
  match m with
  | O => tr = [] /\ w' = w
  | S m' =>
      exists evs rest w1,
        tr = evs ++ rest /\
        full_iteration w k evs w1 /\
        full_iterations m' w1 (k + 1) rest w'
  end.
End Runs.

(** ** Scenarios

    States of concrete runs, under [Stubs.config 3] from world 0. *)
Module Scenarios.

(** The state in which the run with client [c] starts pass [n + 1]. *)
Definition pass_start (c : ChainClient nat) (n : nat) : state nat :=
  match pass_state (Stubs.config 3) c 0%nat n with
  | Some s => s
  | None => initial 0%nat
  end.

Definition nonce_outage_second_pass : state nat :=
  Eval vm_compute in pass_start Stubs.nonce_outage 1.

Definition runs_dry_second_pass : state nat :=
  Eval vm_compute in pass_start Stubs.runs_dry 1.

Definition costly_first_pass : state nat :=
  Eval vm_compute in pass_start Stubs.costly 0.

End Scenarios.

(** ** Two clients that answer alike *)

Section TwoClients.
Context {W1 W2 : Type}.
Variable c1 : ChainClient W1.
Variable c2 : ChainClient W2.
Variable R : W1 -> W2 -> Prop.

(** The same answer, leaving the two worlds related. *)
Definition same_answer {A : Type}
  (x : result A * W1) (y : result A * W2) : Prop :=
  fst x = fst y /\ R (snd x) (snd y).

(** In related worlds every operation of the two clients gives the same
    response. *)
Definition same_responses : Prop :=
  web3_version c1 = web3_version c2 /\
  (forall k, from_key c1 k = from_key c2 k) /\
  (forall b, from_wei c1 b = from_wei c2 b) /\
  (forall w1 w2, R w1 w2 ->
     same_answer (is_connected c1 w1) (is_connected c2 w2) /\
     (forall a, same_answer (get_balance c1 a w1) (get_balance c2 a w2)) /\
     (forall a, same_answer (get_transaction_count c1 a w1)
                            (get_transaction_count c2 a w2)) /\
     (forall c, same_answer (estimate_gas c1 c w1) (estimate_gas c2 c w2)) /\
     (forall t k, same_answer (sign_transaction c1 t k w1)
                              (sign_transaction c2 t k w2)) /\
     (forall r, same_answer (send_raw_transaction c1 r w1)
                            (send_raw_transaction c2 r w2)) /\
     (forall h t, same_answer (wait_for_transaction_receipt c1 h t w1)
                              (wait_for_transaction_receipt c2 h t w2))).

(** Two states of runs that cannot be told apart from outside. *)
Definition related (s1 : state W1) (s2 : state W2) : Prop :=
  R (world s1) (world s2) /\
  iteration s1 = iteration s2 /\
  trace s1 = trace s2.

(** Two results that cannot be told apart: both out of fuel, or the same
    outcome in related states. *)
Definition related_results {A : Type}
  (r1 : option (outcome A * state W1))
  (r2 : option (outcome A * state W2)) : Prop :=
  match r1, r2 with
  | None, None => True
  | Some (o1, s1), Some (o2, s2) => o1 = o2 /\ related s1 s2
  | _, _ => False
  end.

(** Two blocks that take related states to related results. *)
Definition M_related {A : Type} (m1 : M W1 A) (m2 : M W2 A) : Prop :=
  forall s1 s2, related s1 s2 -> related_results (m1 s1) (m2 s2).
End TwoClients.

(** The stop and success lines of a finished run, in order. *)
Definition stop_and_success_events {W : Type}
  (r : outcome unit * state W) : list event :=
  filter is_stop_or_success (trace (snd r)).

(** ** Version numbers read as numbers

    Not what the program does: the numeric reading of a dotted version, as
    the tuple of its fields compared field by field.  It serves to state
    which versions the program's string comparison gets wrong. *)

(** The value of a decimal digit. *)
Definition digit_value (c : ascii) : option N :=
  let n := N_of_ascii c in
  if andb (N.leb 48 n) (N.leb n 57) then Some (n - 48)%N else None.

(** The fields of a dotted version; [cur] is the field being read. *)
Fixpoint version_fields (cur : option N) (s : string) : option (list N) :=
  match s with
  | EmptyString =>
      match cur with Some n => Some [n] | None => None end
  | String c s' =>
      if Ascii.eqb c "."%char then
        match cur, version_fields None s' with
        | Some n, Some rest => Some (n :: rest)
        | _, _ => None
        end
      else
        match digit_value c with
        | Some d =>
            version_fields
              (Some (10 * match cur with Some n => n | None => 0 end + d)%N) s'
        | None => None
        end
  end.

Definition version_tuple (v : string) : option (list N) :=
  version_fields None v.

(** [a <= b] on tuples. *)
Fixpoint tuple_leb (a b : list N) : bool :=
  match a, b with
  | [], _ => true
  | _ :: _, [] => false
  | x :: a', y :: b' =>
      if (x <? y)%N then true
      else if (x =? y)%N then tuple_leb a' b'
      else false
  end.

(** The version [v] is, as a number, at least [t]. *)
Definition numerically_at_least (v : string) (t : list N) : bool :=
  match version_tuple v with
  | Some x => tuple_leb t x
  | None => false
  end.

(** ** More observations *)

(** A pause between two passes (line 130). *)
Definition is_sleep (e : event) : bool :=
  match e with Sleep _ => true | _ => false end.

(** The calls of a trace, in order. *)
Fixpoint calls (tr : list event) : list call :=
  match tr with
  | [] => []
  | Call c :: tr' => c :: calls tr'
  | _ :: tr' => calls tr'
  end.

(** The place of a call in the order in which the program text makes them:
    the two calls of [setup_web3], then the six of a pass. *)
Definition call_rank (c : call) : nat :=
  match c with
  | IsConnected => 0
  | FromKey _ => 1
  | GetBalance _ => 2
  | GetTransactionCount _ => 3
  | EstimateGas _ => 4
  | SignTransaction _ _ => 5
  | SendRawTransaction _ => 6
  | WaitForTransactionReceipt _ _ => 7
  end.

(** A call whose arguments are the configured ones: the key, the source
    address, the call and the transaction with the fields of lines 77-84
    (any nonce), the time-out of line 116. *)
Definition configured_call (cfg : RunConfig) (c : call) : Prop :=
  match c with
  | IsConnected => True
  | FromKey k => k = PRIVATE_KEY cfg
  | GetBalance a => a = FROM_ADDRESS cfg
  | GetTransactionCount a => a = FROM_ADDRESS cfg
  | EstimateGas r =>
      r = {| call_from := FROM_ADDRESS cfg; call_to := TO_ADDRESS cfg;
             call_data := BASE_DATA cfg |}
  | SignTransaction t k =>
      k = PRIVATE_KEY cfg /\
      t = {| tx_from := FROM_ADDRESS cfg;
             tx_to := TO_ADDRESS cfg;
             tx_chainId := CHAIN_ID cfg;
             tx_gas := GAS_LIMIT cfg;
             tx_maxFeePerGas := MAX_FEE_PER_GAS cfg;
             tx_maxPriorityFeePerGas := MAX_PRIORITY_FEE_PER_GAS cfg;
             tx_nonce := tx_nonce t;
             tx_data := BASE_DATA cfg |}
  | SendRawTransaction _ => True
  | WaitForTransactionReceipt _ timeout => timeout = 300
  end.

(** An event that carries configured values only: such a call, or a sleep
    of the configured delay. *)
Definition configured_event (cfg : RunConfig) (e : event) : Prop :=
  match e with
  | Call c => configured_call cfg c
  | Sleep d => d = DELAY_SECONDS cfg
  | Log _ _ => True
  end.

(** The iteration lines of a trace are numbered by the successes logged
    before them: with [done] successes so far, an iteration line reads
    [done + 1] out of the configured maximum. *)
Fixpoint numbered (cfg : RunConfig) (done : Z) (tr : list event) : Prop :=
  match tr with
  | [] => True
  | Log _ (IterationStart k n) :: tr' =>
      k = done + 1 /\ n = MAX_ITERATIONS cfg /\ numbered cfg done tr'
  | Log _ MintSuccessful :: tr' => numbered cfg (done + 1) tr'
  | _ :: tr' => numbered cfg done tr'
  end.

(** The lines after which the program returns (lines 55, 68, 87, 100, 107
    and 124). *)
Definition is_stop_line (e : event) : bool :=
  match e with
  | Log _ (SetupCrashed _) => true
  | Log _ (LowBalance _ _) => true
  | Log _ (BuildFailed _) => true
  | Log _ (GasEstimationFailed _) => true
  | Log _ (SigningFailed _) => true
  | Log _ (TxSendFailed _) => true
  | _ => false
  end.

Section MoreRuns.
Variable cfg : RunConfig.
Context {W : Type}.
Variable w3 : ChainClient W.

(** What the counters of a trace keep to: a success follows a broadcast of
    its pass, and a pass broadcasts at most once. *)
Definition counts_in_order (tr : list event) : Prop :=
  count is_success tr <= count is_broadcast tr /\
  count is_broadcast tr <= count is_iteration_start tr.

(** A client all of whose operations answer, in every world, with a
    balance at or above the minimum, but whose every receipt has a status
    other than 1. *)
Definition every_receipt_fails : Prop :=
  str_lt (web3_version w3) "6.0.0" = false /\
  (forall w, fst (is_connected w3 w) = Ok true) /\
  (exists a, from_key w3 (PRIVATE_KEY cfg) = Ok a /\
             lower (address a) = lower (FROM_ADDRESS cfg)) /\
  (forall w, exists b q,
      fst (get_balance w3 (FROM_ADDRESS cfg) w) = Ok b /\
      from_wei w3 b = Ok q /\
      Qltb q (MIN_BALANCE_SOMI cfg) = false) /\
  (forall w, exists n,
      fst (get_transaction_count w3 (FROM_ADDRESS cfg) w) = Ok n) /\
  (forall c w, exists g, fst (estimate_gas w3 c w) = Ok g) /\
  (forall t k w, exists sg, fst (sign_transaction w3 t k w) = Ok sg) /\
  (forall raw w, exists h, fst (send_raw_transaction w3 raw w) = Ok h) /\
  (forall h t w, exists r,
      fst (wait_for_transaction_receipt w3 h t w) = Ok r /\ status r <> 1).
End MoreRuns.

(** ** More scenarios *)
Module Cases.

(** The gas estimate raises in the first pass. *)
Definition gas_outage : ChainClient nat :=
  Stubs.node
    (Stubs.except_in 1
       (Stubs.with_gas (Err "execution reverted") (Stubs.fine 1))).

(** In the first pass the estimate is the limit of [Stubs.config]. *)
Definition at_limit : ChainClient nat :=
  Stubs.node
    (Stubs.except_in 1 (Stubs.with_gas (Ok 200000) (Stubs.fine 1))).

(** In the first pass the balance is 0.5 ether, the minimum of
    [Stubs.config]. *)
Definition at_minimum : ChainClient nat :=
  Stubs.node
    (Stubs.except_in 1
       (Stubs.with_balance (Ok 500000000000000000) (Stubs.fine 1))).

(** The library cannot derive an account from the key. *)
Definition bad_key : ChainClient nat :=
  Stubs.scripted "6.11.3" (Ok true) (Err "Non-hexadecimal digit found")
    Stubs.fine.

(** The key belongs to another account. *)
Definition other_account : ChainClient nat :=
  Stubs.scripted "6.11.3" (Ok true)
    (Ok {| address := "0x9999000000000000000000000000000000009999" |})
    Stubs.fine.

(** The connectivity check itself raises. *)
Definition broken_transport : ChainClient nat :=
  Stubs.scripted "6.11.3" (Err "Invalid URL") (Ok Stubs.the_account)
    Stubs.fine.

(** The [float] that Python reads from the text 0.1: the binary64 value
    nearest to one tenth, a little above it. *)
Definition float_tenth : Q := 3602879701896397 # 36028797018963968.

(** The first transaction is mined with status 0; in the second pass the
    balance is 0.05 ether. *)
Definition reverts_then_dry : ChainClient nat :=
  Stubs.node
    (fun k =>
       match k with
       | 1%nat =>
           Stubs.with_receipt (Ok {| blockNumber := 1001; status := 0 |})
             (Stubs.fine 1)
       | 2%nat =>
           Stubs.with_balance (Ok 50000000000000000) (Stubs.fine 2)
       | _ => Stubs.fine k
       end).

(** The state in which the run with client [c] starts its first pass. *)
Definition first_pass (c : ChainClient nat) : state nat :=
  Scenarios.pass_start c 0.

Definition gas_outage_first_pass : state nat :=
  Eval vm_compute in first_pass gas_outage.

Definition at_limit_first_pass : state nat :=
  Eval vm_compute in first_pass at_limit.

Definition at_minimum_first_pass : state nat :=
  Eval vm_compute in first_pass at_minimum.

Definition balance_outage_first_pass : state nat :=
  Eval vm_compute in first_pass Stubs.balance_outage.

Definition first_reverts_first_pass : state nat :=
  Eval vm_compute in first_pass Stubs.first_reverts.

End Cases.

(** * Properties *)

(** ** The monad *)

Section MonadFacts.
Context {W : Type}.

Lemma bind_assoc {A B C} (m : M W A) (f : A -> M W B) (g : B -> M W C) s :
  bind (bind m f) g s = bind m (fun x => bind (f x) g) s.
Proof.
  unfold bind. destruct (m s) as [[[a|e|] s']|]; reflexivity.
Qed.

Lemma bind_value {A B} (m : M W A) (f : A -> M W B) s a s' :
  m s = Some (Value a, s') -> bind m f s = f a s'.
Proof. intros H. unfold bind. rewrite H. reflexivity. Qed.

Lemma bind_return {A B} (m : M W A) (f : A -> M W B) s s' :
  m s = Some (Return, s') -> bind m f s = Some (Return, s').
Proof. intros H. unfold bind. rewrite H. reflexivity. Qed.

Lemma while_exit fuel cond (body : M W unit) s :
  cond s = false -> while fuel cond body s = Some (Value tt, s).
Proof. intros H. destruct fuel; simpl; rewrite H; reflexivity. Qed.

Lemma while_next fuel cond (body : M W unit) s s' :
  cond s = true -> body s = Some (Value tt, s') ->
  while (S fuel) cond body s = while fuel cond body s'.
Proof.
  intros Hc Hb. simpl. rewrite Hc. unfold bind. rewrite Hb. reflexivity.
Qed.

Lemma while_return fuel cond (body : M W unit) s s' :
  cond s = true -> body s = Some (Return, s') ->
  while (S fuel) cond body s = Some (Return, s').
Proof.
  intros Hc Hb. simpl. rewrite Hc. unfold bind. rewrite Hb. reflexivity.
Qed.
End MonadFacts.

(** ** Counting events *)

Lemma count_app p tr1 tr2 : count p (tr1 ++ tr2) = count p tr1 + count p tr2.
Proof.
  unfold count. rewrite filter_app, length_app. lia.
Qed.

(** Unfolds a block of the program down to the calls into the client. *)
Ltac unfold_program :=
  unfold iteration_body, upto_sign_tx, upto_gas_estimate, upto_build_tx,
    upto_balance_check, balance_check, build_tx, gas_estimate, sign_tx,
    send_tx, pause, summary, setup, setup_web3, mint_loop,
    bind, try_except, perform, compute, log, sleep, emit, ret, raise,
    return_, get_iteration, set_iteration.

(** Splits on the next answer of the client or the next test. *)
Ltac next_case :=
  match goal with
  | |- context [let (_, _) := ?x in _] =>
      let r := fresh "r" in let w := fresh "w" in let E := fresh "E" in
      destruct x as [r w] eqn:E; destruct r
  | |- context [match ?x with Ok _ => _ | Err _ => _ end] =>
      let E := fresh "E" in destruct x eqn:E
  | |- context [if ?b then _ else _] =>
      let E := fresh "E" in destruct b eqn:E
  end.

Ltac all_cases := cbn; repeat (next_case; cbn).

(** Brings a trace to the form [trace s ++ events]. *)
Ltac flatten_trace :=
  cbn [trace world iteration]; repeat rewrite <- app_assoc; cbn [app].

Section BodyFacts.
Variable cfg : RunConfig.
Context {W : Type}.
Variable w3 : ChainClient W.

(** The body is the pass up to signing, then the send block and the
    pause. *)
Lemma iteration_body_split s :
  iteration_body cfg w3 s =
  bind (upto_sign_tx cfg w3)
    (fun sg => bind (send_tx w3 sg) (fun _ => pause cfg)) s.
Proof.
  unfold_program. all_cases; reflexivity.
Qed.

(** What one pass of the loop does, whatever the client answers: it ends
    by falling through or by [return], never by an exception and never
    without a result; it logs its number first; it logs no summary line;
    and it counts at most one success, exactly when it logs one. *)
Lemma iteration_body_spec s :
  exists o s' suf,
    iteration_body cfg w3 s = Some (o, s') /\
    (o = Value tt \/ o = Return) /\
    trace s' =
      trace s ++
      Log CYAN (IterationStart (iteration s + 1) (MAX_ITERATIONS cfg)) :: suf /\
    count is_summary suf = 0 /\
    count is_iteration_start suf = 0 /\
    iteration s' = iteration s + count is_success suf /\
    count is_success suf <= count is_broadcast suf <= 1.
Proof.
  unfold_program. all_cases;
    (do 3 eexists; split; [reflexivity|]; flatten_trace;
     split; [auto|]; split; [reflexivity|]; cbn; repeat split; lia).
Qed.
End BodyFacts.

(** ** The loop *)

Section LoopFacts.
Variable cfg : RunConfig.
Context {W : Type}.
Variable w3 : ChainClient W.

Lemma run_passes_S n s s' :
  run_passes cfg w3 (S n) s = Some s' ->
  exists s1,
    loop_cond cfg s = true /\
    iteration_body cfg w3 s = Some (Value tt, s1) /\
    run_passes cfg w3 n s1 = Some s'.
Proof.
  simpl. destruct (loop_cond cfg s); [|discriminate].
  destruct (iteration_body cfg w3 s) as [[[[]|e|] s1]|]; try discriminate.
  intros H. exists s1. auto.
Qed.

Lemma passes_while n : forall s s',
  run_passes cfg w3 n s = Some s' ->
  forall fuel,
    while (n + fuel) (loop_cond cfg) (iteration_body cfg w3) s =
    while fuel (loop_cond cfg) (iteration_body cfg w3) s'.
Proof.
  induction n as [|n IH]; intros s s' H fuel.
  - injection H as <-. reflexivity.
  - apply run_passes_S in H. destruct H as (s1 & Hc & Hb & H).
    change (S n + fuel)%nat with (S (n + fuel)).
    rewrite (while_next _ _ _ _ _ Hc Hb). exact (IH _ _ H fuel).
Qed.

Lemma starts_pass_inv w0 n s :
  starts_pass cfg w3 w0 n s ->
  exists a s0,
    setup cfg w3 (initial w0) = Some (Value a, s0) /\
    run_passes cfg w3 n (loop_entry s0) = Some s /\
    loop_cond cfg s = true.
Proof.
  unfold starts_pass, pass_state.
  destruct (setup cfg w3 (initial w0)) as [[[a|e|] s0]|] eqn:Hs;
    try discriminate.
  destruct (run_passes cfg w3 n (loop_entry s0)) as [s1|] eqn:Hp;
    try discriminate.
  destruct (loop_cond cfg s1) eqn:Hc; try discriminate.
  intros H. injection H as <-. exists a, s0. auto.
Qed.

(** When setup succeeds it has made its two calls and logged one line. *)
Lemma setup_value w0 a s0 :
  setup cfg w3 (initial w0) = Some (Value a, s0) ->
  trace s0 =
    [Call IsConnected; Call (FromKey (PRIVATE_KEY cfg)); Log GREEN SetupOk].
Proof.
  unfold_program. revert a s0. all_cases; intros acct st H;
    try discriminate; injection H as _ <-; reflexivity.
Qed.

Lemma run_after_setup fuel w0 a s0 :
  setup cfg w3 (initial w0) = Some (Value a, s0) ->
  run cfg w3 fuel w0 =
  bind (while fuel (loop_cond cfg) (iteration_body cfg w3))
    (fun _ => summary cfg) (loop_entry s0).
Proof.
  intros H. unfold run, main. rewrite (bind_value _ _ _ _ _ H).
  reflexivity.
Qed.

Lemma invariant_entry w0 a s0 :
  setup cfg w3 (initial w0) = Some (Value a, s0) ->
  loop_invariant cfg (loop_entry s0).
Proof.
  intros H. apply setup_value in H. unfold loop_invariant, loop_entry.
  cbn [trace iteration]. rewrite H. cbn. lia.
Qed.

Lemma invariant_body s o s' :
  loop_invariant cfg s -> loop_cond cfg s = true ->
  iteration_body cfg w3 s = Some (o, s') ->
  loop_invariant cfg s'.
Proof.
  intros (Hsum & Hsuc & Hmax) Hc Hb.
  destruct (iteration_body_spec cfg w3 s)
    as (o' & s'' & suf & E & _ & Ht & H1 & _ & H3 & H4).
  rewrite E in Hb. injection Hb as <- <-.
  unfold loop_cond in Hc. apply Z.ltb_lt in Hc.
  unfold loop_invariant. rewrite Ht.
  change (Log CYAN (IterationStart (iteration s + 1) (MAX_ITERATIONS cfg))
            :: suf)
    with ([Log CYAN (IterationStart (iteration s + 1) (MAX_ITERATIONS cfg))]
            ++ suf).
  rewrite !count_app. cbn [count filter is_summary is_success List.length].
  cbn. lia.
Qed.

Lemma invariant_passes n : forall s s',
  run_passes cfg w3 n s = Some s' ->
  loop_invariant cfg s -> loop_invariant cfg s'.
Proof.
  induction n as [|n IH]; intros s s' H Hinv.
  - injection H as <-. exact Hinv.
  - apply run_passes_S in H. destruct H as (s1 & Hc & Hb & H).
    apply (IH _ _ H). exact (invariant_body _ _ _ Hinv Hc Hb).
Qed.

Lemma invariant_starts_pass w0 n s :
  starts_pass cfg w3 w0 n s -> loop_invariant cfg s.
Proof.
  intros H. apply starts_pass_inv in H. destruct H as (a & s0 & Hs & Hp & _).
  exact (invariant_passes _ _ _ Hp (invariant_entry _ _ _ Hs)).
Qed.

(** However the loop ends, the invariant holds then; and when it ends by
    its condition, the condition is false. *)
Lemma while_spec fuel : forall s o s',
  loop_invariant cfg s ->
  while fuel (loop_cond cfg) (iteration_body cfg w3) s = Some (o, s') ->
  loop_invariant cfg s' /\
  (o = Return \/ (o = Value tt /\ loop_cond cfg s' = false)).
Proof.
  induction fuel as [|fuel IH]; intros s o s' Hinv Hw.
  - simpl in Hw. destruct (loop_cond cfg s) eqn:Hc; [discriminate|].
    injection Hw as <- <-. auto.
  - simpl in Hw. destruct (loop_cond cfg s) eqn:Hc.
    + destruct (iteration_body_spec cfg w3 s)
        as (o1 & s1 & suf & E & Ho & _).
      pose proof (invariant_body _ _ _ Hinv Hc E) as Hinv1.
      unfold bind in Hw. rewrite E in Hw.
      destruct Ho as [-> | ->].
      * exact (IH _ _ _ Hinv1 Hw).
      * injection Hw as <- <-. auto.
    + injection Hw as <- <-. auto.
Qed.

(** A pass that ends by [return] ends the run, with no summary line. *)
Lemma run_returns_in_pass w0 n s s' :
  starts_pass cfg w3 w0 n s ->
  iteration_body cfg w3 s = Some (Return, s') ->
  forall fuel, (n < fuel)%nat -> run cfg w3 fuel w0 = Some (Return, s').
Proof.
  intros H Hb fuel Hf.
  apply starts_pass_inv in H. destruct H as (a & s0 & Hs & Hp & Hc).
  rewrite (run_after_setup _ _ _ _ Hs).
  replace fuel with (n + S (fuel - n - 1))%nat by lia.
  unfold bind at 1. rewrite (passes_while _ _ _ Hp).
  rewrite (while_return _ _ _ _ _ Hc Hb). reflexivity.
Qed.
End LoopFacts.

(** ** Setup *)

Section SetupClaims.
Variable cfg : RunConfig.
Context {W : Type}.
Variable w3 : ChainClient W.

(** What [main] logs when [setup_web3] raises the version error. *)
Lemma old_version_aborts w0 fuel :
  str_lt (web3_version w3) "6.0.0" = true ->
  run cfg w3 fuel w0 =
  Some (Return,
        {| world := w0; iteration := 0;
           trace :=
             [Log RED
                (SetupCrashed
                   "Need web3.py 6.0.0+. Run 'pip install web3>=6.0.0'.")]
        |}).
Proof.
  intros H. unfold run, main. unfold_program. rewrite H. reflexivity.
Qed.

(** C10.  The version check compares strings: for a library version that
    is numerically at least 6.0.0 but, as a string, less than "6.0.0",
    [setup_web3] raises the incompatible-version error and the run aborts
    before the loop starts, having logged that error and done nothing
    else. *)
Theorem lexicographic_version_check_rejects_newer w0 fuel :
  numerically_at_least (web3_version w3) [6; 0; 0]%N = true ->
  str_lt (web3_version w3) "6.0.0" = true ->
  setup_web3 cfg w3 (initial w0) =
    Some (Raise "Need web3.py 6.0.0+. Run 'pip install web3>=6.0.0'.",
          initial w0) /\
  run cfg w3 fuel w0 =
    Some (Return,
          {| world := w0; iteration := 0;
             trace :=
               [Log RED
                  (SetupCrashed
                     "Need web3.py 6.0.0+. Run 'pip install web3>=6.0.0'.")]
          |}).
Proof.
  intros _ H. split.
  - unfold setup_web3. rewrite H. reflexivity.
  - exact (old_version_aborts w0 fuel H).
Qed.

(** C7.  If the connectivity check does not answer True, or the address
    derived from the key differs from the configured source address
    after lower-casing both, the run ends by [return] before the loop:
    the counter is 0, no pass is started, and the trace holds nothing but
    calls of setup followed by the "Setup crashed" line. *)
Theorem setup_failure_aborts_before_loop w0 fuel :
  fst (is_connected w3 w0) <> Ok true \/
  (exists a, from_key w3 (PRIVATE_KEY cfg) = Ok a /\
             lower (address a) <> lower (FROM_ADDRESS cfg)) ->
  exists e s' calls,
    run cfg w3 fuel w0 = Some (Return, s') /\
    iteration s' = 0 /\
    trace s' = calls ++ [Log RED (SetupCrashed e)] /\
    forallb is_setup_call calls = true /\
    count is_iteration_start (trace s') = 0 /\
    count is_transaction_call (trace s') = 0.
Proof.
  intros H. unfold run, main. unfold_program. unfold str_ne.
  all_cases;
    try (do 2 eexists;
         (exists [] + exists [Call IsConnected] +
          exists [Call IsConnected; Call (FromKey (PRIVATE_KEY cfg))]);
         repeat split; reflexivity).
  exfalso. destruct H as [H | (acct & Ha & Hne)].
  - apply H. cbn. f_equal.
    match goal with E : negb _ = false |- _ =>
      apply negb_false_iff in E; exact E end.
  - injection Ha as <-.
    match goal with E : negb (String.eqb _ _) = false |- _ =>
      apply negb_false_iff in E; apply String.eqb_eq in E end.
    auto.
Qed.
End SetupClaims.

(** C10 at web3.py 10.0.0. *)
Lemma lexicographic_version_check_rejects_newer_witness :
  numerically_at_least "10.0.0" [6; 0; 0]%N = true /\
  str_lt "10.0.0" "6.0.0" = true /\
  run (Stubs.config 3) Stubs.version_ten 10 0%nat =
    Some (Return,
          {| world := 0%nat; iteration := 0;
             trace :=
               [Log RED
                  (SetupCrashed
                     "Need web3.py 6.0.0+. Run 'pip install web3>=6.0.0'.")]
          |}).
Proof.
  split; [reflexivity|]. split; [reflexivity|].
  apply (lexicographic_version_check_rejects_newer
           (Stubs.config 3) Stubs.version_ten 0%nat 10%nat);
    reflexivity.
Defined.

(** C7 at an endpoint that does not answer. *)
Lemma setup_failure_aborts_before_loop_witness :
  exists e s' calls,
    run (Stubs.config 3) Stubs.unreachable 10 0%nat = Some (Return, s') /\
    iteration s' = 0 /\
    trace s' = calls ++ [Log RED (SetupCrashed e)] /\
    forallb is_setup_call calls = true /\
    count is_iteration_start (trace s') = 0 /\
    count is_transaction_call (trace s') = 0.
Proof.
  apply (setup_failure_aborts_before_loop
           (Stubs.config 3) Stubs.unreachable 0%nat 10%nat).
  left. simpl. discriminate.
Defined.

(** ** One pass *)

Section PassClaims.
Variable cfg : RunConfig.
Context {W : Type}.
Variable w3 : ChainClient W.

(** The body read as a prefix followed by the rest of the pass. *)
Lemma iteration_body_after_balance_check s :
  iteration_body cfg w3 s =
  bind (upto_balance_check cfg w3)
    (fun _ =>
       t <- build_tx cfg w3 (BASE_DATA cfg) ;;
       gas_estimate cfg w3 (BASE_DATA cfg) ;;
       sg <- sign_tx cfg w3 t ;;
       send_tx w3 sg ;;
       pause cfg) s.
Proof. unfold_program. all_cases; reflexivity. Qed.

Lemma iteration_body_after_build_tx s :
  iteration_body cfg w3 s =
  bind (upto_build_tx cfg w3)
    (fun t =>
       gas_estimate cfg w3 (BASE_DATA cfg) ;;
       sg <- sign_tx cfg w3 t ;;
       send_tx w3 sg ;;
       pause cfg) s.
Proof. unfold_program. all_cases; reflexivity. Qed.

Lemma iteration_body_after_gas_estimate s :
  iteration_body cfg w3 s =
  bind (upto_gas_estimate cfg w3)
    (fun t =>
       sg <- sign_tx cfg w3 t ;;
       send_tx w3 sg ;;
       pause cfg) s.
Proof. unfold_program. all_cases; reflexivity. Qed.

Ltac prefix_cases :=
  unfold quiet_prefix; unfold_program; all_cases;
  intros H; try discriminate H; injection H; intros; subst;
  repeat match goal with |- _ /\ _ => split end;
  first [ reflexivity
        | eexists; split;
          [flatten_trace; reflexivity | cbn; repeat split; lia] ].

Lemma upto_balance_check_quiet s s1 :
  upto_balance_check cfg w3 s = Some (Value tt, s1) -> quiet_prefix cfg s s1.
Proof. prefix_cases. Qed.

Lemma upto_build_tx_quiet s t s1 :
  upto_build_tx cfg w3 s = Some (Value t, s1) ->
  quiet_prefix cfg s s1 /\ tx_gas t = GAS_LIMIT cfg.
Proof. prefix_cases. Qed.

Lemma upto_gas_estimate_quiet s t s1 :
  upto_gas_estimate cfg w3 s = Some (Value t, s1) ->
  quiet_prefix cfg s s1 /\ tx_gas t = GAS_LIMIT cfg.
Proof. prefix_cases. Qed.

Lemma upto_sign_tx_quiet s sg s1 :
  upto_sign_tx cfg w3 s = Some (Value sg, s1) -> quiet_prefix cfg s s1.
Proof. prefix_cases. Qed.

(** A quiet prefix followed by a few more events and a last line. *)
Lemma quiet_prefix_then (s s1 : state W) tail last :
  quiet_prefix cfg s s1 ->
  count is_iteration_start tail = 0 ->
  count is_success tail = 0 ->
  count is_summary tail = 0 ->
  exists mid,
    trace s1 ++ tail ++ [last] =
      trace s ++
      Log CYAN (IterationStart (iteration s + 1) (MAX_ITERATIONS cfg))
        :: mid ++ [last] /\
    count is_iteration_start mid = 0 /\
    count is_success mid = 0 /\
    count is_summary mid = 0.
Proof.
  intros (mid1 & Ht & H1 & H2 & H3 & _ & _) T1 T2 T3.
  exists (mid1 ++ tail). rewrite Ht, !count_app.
  repeat split; try lia.
  rewrite <- !app_assoc. reflexivity.
Qed.

(** When one of the four operations raises, the pass ends by [return]
    right after the line that reports it. *)
Lemma raising_pass_returns s st e :
  raises_in_pass cfg w3 s st e ->
  exists s' mid,
    iteration_body cfg w3 s = Some (Return, s') /\
    trace s' =
      trace s ++
      Log CYAN (IterationStart (iteration s + 1) (MAX_ITERATIONS cfg))
        :: mid ++ [failure_line st e] /\
    count is_iteration_start mid = 0 /\
    count is_success mid = 0 /\
    count is_summary mid = 0 /\
    iteration s' = iteration s.
Proof.
  destruct st; cbn [raises_in_pass failure_line].
  - intros (s1 & Hp & Hr).
    destruct (get_transaction_count w3 (FROM_ADDRESS cfg) (world s1))
      as [r w] eqn:E.
    cbn in Hr. subst r.
    pose proof (upto_balance_check_quiet _ _ Hp) as Hq.
    destruct (quiet_prefix_then s s1
                [Call (GetTransactionCount (FROM_ADDRESS cfg))]
                (Log RED (BuildFailed e)) Hq) as (mid & Hm & Hc);
      try reflexivity.
    eexists. exists mid. split.
    + rewrite iteration_body_after_balance_check.
      rewrite (bind_value _ _ _ _ _ Hp).
      unfold_program. rewrite E. cbn. reflexivity.
    + cbn [trace iteration]. rewrite <- Hm, <- app_assoc.
      destruct Hq as (_ & _ & _ & _ & _ & _ & Hi). tauto.
  - intros (t & s1 & Hp & Hr).
    destruct (sign_transaction w3 t (PRIVATE_KEY cfg) (world s1))
      as [r w] eqn:E.
    cbn in Hr. subst r.
    pose proof (proj1 (upto_gas_estimate_quiet _ _ _ Hp)) as Hq.
    destruct (quiet_prefix_then s s1
                [Call (SignTransaction t (PRIVATE_KEY cfg))]
                (Log RED (SigningFailed e)) Hq) as (mid & Hm & Hc);
      try reflexivity.
    eexists. exists mid. split.
    + rewrite iteration_body_after_gas_estimate.
      rewrite (bind_value _ _ _ _ _ Hp).
      unfold_program. rewrite E. cbn. reflexivity.
    + cbn [trace iteration]. rewrite <- Hm, <- app_assoc.
      destruct Hq as (_ & _ & _ & _ & _ & _ & Hi). tauto.
  - intros (sg & s1 & Hp & Hr).
    destruct (send_raw_transaction w3 (raw_transaction sg) (world s1))
      as [r w] eqn:E.
    cbn in Hr. subst r.
    pose proof (upto_sign_tx_quiet _ _ _ Hp) as Hq.
    destruct (quiet_prefix_then s s1
                [Call (SendRawTransaction (raw_transaction sg))]
                (Log RED (TxSendFailed e)) Hq) as (mid & Hm & Hc);
      try reflexivity.
    eexists. exists mid. split.
    + rewrite iteration_body_split.
      rewrite (bind_value _ _ _ _ _ Hp).
      unfold_program. rewrite E. cbn. reflexivity.
    + cbn [trace iteration]. rewrite <- Hm, <- app_assoc.
      destruct Hq as (_ & _ & _ & _ & _ & _ & Hi). tauto.
  - intros (sg & s1 & h & w & Hp & Hs & Hr).
    destruct (wait_for_transaction_receipt w3 h 300 w) as [r w'] eqn:E.
    cbn in Hr. subst r.
    pose proof (upto_sign_tx_quiet _ _ _ Hp) as Hq.
    destruct (quiet_prefix_then s s1
                [Call (SendRawTransaction (raw_transaction sg));
                 Log GREEN (TxSent h);
                 Call (WaitForTransactionReceipt h 300)]
                (Log RED (TxSendFailed e)) Hq) as (mid & Hm & Hc);
      try reflexivity.
    eexists. exists mid. split.
    + rewrite iteration_body_split.
      rewrite (bind_value _ _ _ _ _ Hp).
      unfold_program. rewrite Hs. cbn. rewrite E. cbn. reflexivity.
    + cbn [trace iteration]. rewrite <- Hm. flatten_trace.
      destruct Hq as (_ & _ & _ & _ & _ & _ & Hi). tauto.
Qed.

Lemma failure_line_plain st e :
  is_success (failure_line st e) = false /\
  is_summary (failure_line st e) = false /\
  is_iteration_start (failure_line st e) = false.
Proof. destruct st; auto. Qed.

Lemma count_single p (ev : event) :
  p ev = false -> count p [ev] = 0.
Proof. intros H. unfold count. cbn. rewrite H. reflexivity. Qed.

(** C4.  If the nonce fetch, the signing, the broadcast or the receipt
    wait raises in the pass the run logs as iteration k, the run ends by
    [return] right after logging the cause: the trace stops at the line
    that reports the error, no further pass is started, no summary line
    is logged, and the counter and the number of successes logged are
    k - 1. *)
Theorem step_error_stops_run w0 n s st e :
  starts_pass cfg w3 w0 n s ->
  raises_in_pass cfg w3 s st e ->
  exists s' mid,
    (forall fuel, (n < fuel)%nat ->
       run cfg w3 fuel w0 = Some (Return, s')) /\
    trace s' =
      trace s ++
      Log CYAN (IterationStart (iteration s + 1) (MAX_ITERATIONS cfg))
        :: mid ++ [failure_line st e] /\
    count is_iteration_start mid = 0 /\
    count is_success mid = 0 /\
    iteration s' = (iteration s + 1) - 1 /\
    count is_success (trace s') = (iteration s + 1) - 1 /\
    count is_summary (trace s') = 0.
Proof.
  intros Hs Hr.
  destruct (raising_pass_returns s st e Hr)
    as (s' & mid & Hb & Ht & M1 & M2 & M3 & Hi).
  destruct (invariant_starts_pass _ _ _ _ _ Hs) as (I1 & I2 & _).
  destruct (failure_line_plain st e) as (F1 & F2 & _).
  exists s', mid. split.
  { intros fuel Hf. exact (run_returns_in_pass _ _ _ _ _ _ Hs Hb fuel Hf). }
  split; [exact Ht|]. split; [exact M1|]. split; [exact M2|].
  split; [lia|]. rewrite Ht.
  change (Log CYAN (IterationStart (iteration s + 1) (MAX_ITERATIONS cfg))
            :: mid ++ [failure_line st e])
    with ([Log CYAN (IterationStart (iteration s + 1) (MAX_ITERATIONS cfg))]
            ++ mid ++ [failure_line st e]).
  rewrite !count_app, !(count_single _ _ F1), !(count_single _ _ F2).
  rewrite !count_single by reflexivity. lia.
Qed.

(** If, in the pass the run logs as iteration k, the balance query
    answers and the balance is below the minimum, the run ends by
    [return] after the low-balance line: that pass has made the balance
    query and no other call, the counter and the number of successes
    logged are k - 1, and no summary line is logged.  When this is the
    first pass of the run, the whole trace is setup, the iteration line,
    the balance query and the low-balance line. *)
Theorem low_balance_stops_gracefully w0 n s b w1 q :
  starts_pass cfg w3 w0 n s ->
  get_balance w3 (FROM_ADDRESS cfg) (world s) = (Ok b, w1) ->
  from_wei w3 b = Ok q ->
  Qltb q (MIN_BALANCE_SOMI cfg) = true ->
  exists s',
    (forall fuel, (n < fuel)%nat ->
       run cfg w3 fuel w0 = Some (Return, s')) /\
    trace s' =
      trace s ++
      [Log CYAN (IterationStart (iteration s + 1) (MAX_ITERATIONS cfg));
       Call (GetBalance (FROM_ADDRESS cfg));
       Log YELLOW (LowBalance q (MIN_BALANCE_SOMI cfg))] /\
    iteration s' = (iteration s + 1) - 1 /\
    count is_success (trace s') = (iteration s + 1) - 1 /\
    count is_summary (trace s') = 0 /\
    (n = O ->
     trace s' =
       [Call IsConnected; Call (FromKey (PRIVATE_KEY cfg));
        Log GREEN SetupOk;
        Log CYAN (IterationStart 1 (MAX_ITERATIONS cfg));
        Call (GetBalance (FROM_ADDRESS cfg));
        Log YELLOW (LowBalance q (MIN_BALANCE_SOMI cfg))]).
Proof.
  intros Hs Hb Hq Hlt.
  destruct (invariant_starts_pass _ _ _ _ _ Hs) as (I1 & I2 & _).
  eexists. split.
  { intros fuel Hf. refine (run_returns_in_pass _ _ _ _ _ _ Hs _ fuel Hf).
    unfold_program. cbn. rewrite Hb. cbn. rewrite Hq. cbn. rewrite Hlt.
    cbn. reflexivity. }
  flatten_trace. split; [reflexivity|]. split; [lia|].
  rewrite !count_app. split; [cbn; lia|]. split; [cbn; lia|].
  intros ->. apply starts_pass_inv in Hs.
  destruct Hs as (a & s0 & Hsetup & Hp & _).
  injection Hp as <-. cbn [loop_entry trace iteration].
  rewrite (setup_value _ _ _ _ _ Hsetup). reflexivity.
Qed.

(** C6.  If a pass gets to the gas estimate with transaction [t] built
    and the estimate answers a value above the configured limit, the pass
    logs the warning and goes on to sign [t], whose gas field is the
    configured limit; and if the signing answers, the next call is the
    broadcast of the signed payload. *)
Theorem gas_estimate_over_limit_only_warns s t s2 g w :
  upto_build_tx cfg w3 s = Some (Value t, s2) ->
  estimate_gas w3
    {| call_from := FROM_ADDRESS cfg; call_to := TO_ADDRESS cfg;
       call_data := BASE_DATA cfg |} (world s2) = (Ok g, w) ->
  g > GAS_LIMIT cfg ->
  exists o s' rest,
    iteration_body cfg w3 s = Some (o, s') /\
    tx_gas t = GAS_LIMIT cfg /\
    trace s' =
      trace s2 ++
      Call (EstimateGas
              {| call_from := FROM_ADDRESS cfg; call_to := TO_ADDRESS cfg;
                 call_data := BASE_DATA cfg |})
      :: Log YELLOW (GasWarning g (GAS_LIMIT cfg))
      :: Call (SignTransaction t (PRIVATE_KEY cfg))
      :: rest /\
    (forall sg w',
       sign_transaction w3 t (PRIVATE_KEY cfg) w = (Ok sg, w') ->
       exists rest',
         rest = Call (SendRawTransaction (raw_transaction sg)) :: rest').
Proof.
  intros Hp He Hg.
  destruct (upto_build_tx_quiet _ _ _ Hp) as (_ & Hgas).
  rewrite iteration_body_after_build_tx, (bind_value _ _ _ _ _ Hp).
  apply Z.gt_lt, Z.ltb_lt in Hg. rewrite <- Z.gtb_ltb in Hg.
  unfold_program. cbn. rewrite He. cbn. rewrite Hg. cbn.
  all_cases;
    (do 3 eexists; split; [reflexivity|]; split; [exact Hgas|];
     flatten_trace; split; [reflexivity|];
     intros sg w' Hsg;
     first [discriminate Hsg
           | injection Hsg as <- <-; eexists; reflexivity]).
Qed.
End PassClaims.

(** C4 where the nonce fetch raises in the second pass: the run ends there
    with one success. *)
Lemma step_error_stops_run_witness :
  starts_pass (Stubs.config 3) Stubs.nonce_outage 0%nat 1
    Scenarios.nonce_outage_second_pass /\
  raises_in_pass (Stubs.config 3) Stubs.nonce_outage
    Scenarios.nonce_outage_second_pass NonceFetch "Read timed out" /\
  exists s',
    run (Stubs.config 3) Stubs.nonce_outage 5 0%nat = Some (Return, s') /\
    iteration s' = 1 /\
    count is_success (trace s') = 1.
Proof.
  assert (Hs : starts_pass (Stubs.config 3) Stubs.nonce_outage 0%nat 1
                 Scenarios.nonce_outage_second_pass)
    by (vm_compute; reflexivity).
  assert (Hr : raises_in_pass (Stubs.config 3) Stubs.nonce_outage
                 Scenarios.nonce_outage_second_pass NonceFetch
                 "Read timed out")
    by (eexists; split; vm_compute; reflexivity).
  split; [exact Hs|]. split; [exact Hr|].
  destruct (step_error_stops_run _ _ _ _ _ _ _ Hs Hr)
    as (s' & mid & Hrun & _ & _ & _ & Hi & Hc & _).
  exists s'. split; [apply Hrun; lia|]. split; [exact Hi | exact Hc].
Defined.

(** The balance is 0.05 ether in the second pass, under a minimum of 0.5:
    the run ends there with one success. *)
Lemma low_balance_stops_gracefully_witness :
  starts_pass (Stubs.config 3) Stubs.runs_dry 0%nat 1
    Scenarios.runs_dry_second_pass /\
  exists s',
    run (Stubs.config 3) Stubs.runs_dry 5 0%nat = Some (Return, s') /\
    iteration s' = 1 /\
    count is_success (trace s') = 1 /\
    count is_broadcast (trace s') = 1 /\
    count is_summary (trace s') = 0.
Proof.
  assert (Hs : starts_pass (Stubs.config 3) Stubs.runs_dry 0%nat 1
                 Scenarios.runs_dry_second_pass)
    by (vm_compute; reflexivity).
  split; [exact Hs|].
  destruct (low_balance_stops_gracefully (Stubs.config 3) Stubs.runs_dry
              0%nat 1 Scenarios.runs_dry_second_pass
              50000000000000000 2%nat (50000000000000000 # 1000000000000000000)
              Hs eq_refl eq_refl eq_refl)
    as (s' & Hrun & Ht & Hi & Hc & Hsum & _).
  exists s'. split; [apply Hrun; lia|]. split; [exact Hi|].
  split; [exact Hc|]. split; [rewrite Ht; reflexivity | exact Hsum].
Defined.

(** C6 where the estimate of the first pass is 250000 against a limit of
    200000. *)
Lemma gas_estimate_over_limit_only_warns_witness :
  exists t s2 o s' rest,
    upto_build_tx (Stubs.config 3) Stubs.costly Scenarios.costly_first_pass =
      Some (Value t, s2) /\
    iteration_body (Stubs.config 3) Stubs.costly Scenarios.costly_first_pass =
      Some (o, s') /\
    tx_gas t = 200000 /\
    trace s' =
      trace s2 ++
      Call (EstimateGas
              {| call_from := FROM_ADDRESS (Stubs.config 3);
                 call_to := TO_ADDRESS (Stubs.config 3);
                 call_data := BASE_DATA (Stubs.config 3) |})
      :: Log YELLOW (GasWarning 250000 200000)
      :: Call (SignTransaction t (PRIVATE_KEY (Stubs.config 3)))
      :: Call (SendRawTransaction "0x02f8")
      :: rest.
Proof.
  do 2 eexists.
  assert (Hp : upto_build_tx (Stubs.config 3) Stubs.costly
                 Scenarios.costly_first_pass = Some (Value _, _))
    by (vm_compute; reflexivity).
  destruct (gas_estimate_over_limit_only_warns (Stubs.config 3) Stubs.costly
              _ _ _ 250000 1%nat Hp eq_refl eq_refl)
    as (o & s' & rest & Hb & Hg & Ht & Hsend).
  destruct (Hsend {| raw_transaction := "0x02f8" |} 1%nat eq_refl)
    as (rest' & ->).
  exists o, s', rest'. split; [exact Hp|]. split; [exact Hb|].
  split; [exact Hg | exact Ht].
Defined.

(** ** Running to the maximum *)

Section ExhaustionClaims.
Variable cfg : RunConfig.
Context {W : Type}.
Variable w3 : ChainClient W.
Hypothesis fine : always_succeeds cfg w3.

(** With such a client setup goes through. *)
Lemma setup_succeeds w0 :
  exists a s0,
    setup cfg w3 (initial w0) = Some (Value a, s0) /\
    trace s0 =
      [Call IsConnected; Call (FromKey (PRIVATE_KEY cfg));
       Log GREEN SetupOk].
Proof.
  destruct fine as (Hv & Hc & (a & Hk & Ha) & _).
  unfold_program. rewrite Hv. cbn.
  specialize (Hc w0).
  destruct (is_connected w3 w0) as [r w] eqn:E. cbn in Hc. subst r. cbn.
  rewrite Hk. cbn. unfold str_ne. rewrite Ha, String.eqb_refl. cbn.
  do 2 eexists. split; reflexivity.
Qed.

(** With such a client a pass runs to its end, broadcasts once and counts
    one success. *)
Lemma pass_succeeds s :
  exists s' suf,
    iteration_body cfg w3 s = Some (Value tt, s') /\
    iteration s' = iteration s + 1 /\
    trace s' = trace s ++ suf /\
    count is_iteration_start suf = 1 /\
    count is_broadcast suf = 1 /\
    count is_success suf = 1 /\
    count is_stop_or_success suf = 1 /\
    count is_summary suf = 0.
Proof.
  destruct fine as (_ & _ & _ & Hbal & Hn & Hg & Hsg & Hsd & Hw).
  unfold_program. cbn.
  destruct (Hbal (world s)) as (b & q & Hb & Hq & Hlt).
  destruct (get_balance w3 (FROM_ADDRESS cfg) (world s)) as [r1 w1].
  cbn in Hb. subst r1. cbn. rewrite Hq. cbn. rewrite Hlt. cbn.
  destruct (Hn w1) as (n & Hn1).
  destruct (get_transaction_count w3 (FROM_ADDRESS cfg) w1) as [r2 w2].
  cbn in Hn1. subst r2. cbn.
  match goal with
  | |- context [estimate_gas w3 ?c w2] =>
      destruct (Hg c w2) as (g & Hg1);
      destruct (estimate_gas w3 c w2) as [r3 w4]
  end.
  cbn in Hg1. subst r3. cbn.
  destruct (g >? GAS_LIMIT cfg); cbn;
    (match goal with
     | |- context [sign_transaction w3 ?t ?k ?w] =>
         destruct (Hsg t k w) as (sg & Hsg1);
         destruct (sign_transaction w3 t k w) as [r4 w5]
     end;
     cbn in Hsg1; subst r4; cbn;
     destruct (Hsd (raw_transaction sg) w5) as (h & Hsd1);
     destruct (send_raw_transaction w3 (raw_transaction sg) w5)
       as [r5 w6];
     cbn in Hsd1; subst r5; cbn;
     destruct (Hw h 300 w6) as (rc & Hw1 & Hst);
     destruct (wait_for_transaction_receipt w3 h 300 w6) as [r6 w7];
     cbn in Hw1; subst r6; cbn; rewrite Hst; cbn;
     destruct (iteration s + 1 <? MAX_ITERATIONS cfg); cbn;
     do 2 eexists; (split; [reflexivity|]); flatten_trace;
     (split; [reflexivity|]); (split; [reflexivity|]);
     cbn; repeat split; lia).
Qed.

(** From a state that is [m] successes short of the maximum, the loop
    makes [m] passes and ends by its condition. *)
Lemma loop_succeeds m : forall s fuel,
  iteration s + Z.of_nat m = MAX_ITERATIONS cfg ->
  (m <= fuel)%nat ->
  exists s' suf,
    while fuel (loop_cond cfg) (iteration_body cfg w3) s =
      Some (Value tt, s') /\
    iteration s' = MAX_ITERATIONS cfg /\
    trace s' = trace s ++ suf /\
    count is_iteration_start suf = Z.of_nat m /\
    count is_broadcast suf = Z.of_nat m /\
    count is_success suf = Z.of_nat m /\
    count is_stop_or_success suf = Z.of_nat m /\
    count is_summary suf = 0.
Proof.
  induction m as [|m IH]; intros s fuel Hi Hf.
  - exists s, []. rewrite while_exit.
    + rewrite app_nil_r. cbn. repeat split; lia.
    + unfold loop_cond. apply Z.ltb_ge. lia.
  - destruct fuel as [|fuel]; [lia|].
    destruct (pass_succeeds s)
      as (s1 & suf1 & Hb & Hi1 & Ht1 & A1 & A2 & A3 & A4 & A5).
    destruct (IH s1 fuel)
      as (s' & suf & Hw & Hi' & Ht & B1 & B2 & B3 & B4 & B5);
      [lia | lia |].
    assert (Hc : loop_cond cfg s = true)
      by (unfold loop_cond; apply Z.ltb_lt; lia).
    exists s', (suf1 ++ suf).
    rewrite (while_next _ _ _ _ _ Hc Hb).
    rewrite Ht, Ht1, app_assoc, !count_app.
    repeat split; try assumption; lia.
Qed.

(** With such a client setup leaves the world as the connectivity check
    left it. *)
Lemma setup_succeeds_world w0 :
  exists a s0 wS,
    setup cfg w3 (initial w0) = Some (Value a, s0) /\
    is_connected w3 w0 = (Ok true, wS) /\
    world s0 = wS.
Proof.
  destruct fine as (Hv & Hc & (a & Hk & Ha) & _).
  unfold_program. rewrite Hv. cbn.
  specialize (Hc w0).
  destruct (is_connected w3 w0) as [r w] eqn:E. cbn in Hc. subst r. cbn.
  rewrite Hk. cbn. unfold str_ne. rewrite Ha, String.eqb_refl. cbn.
  do 3 eexists. split; [reflexivity|]. split; reflexivity.
Qed.

(** With such a client a pass is a full iteration: every step is made, in
    order, on the answers of the steps before. *)
Lemma pass_is_full s :
  exists s' evs,
    iteration_body cfg w3 s = Some (Value tt, s') /\
    iteration s' = iteration s + 1 /\
    trace s' = trace s ++ evs /\
    full_iteration cfg w3 (world s) (iteration s + 1) evs (world s').
Proof.
  destruct fine as (_ & _ & _ & Hbal & Hn & Hg & Hsg & Hsd & Hw).
  unfold full_iteration. unfold_program. cbn.
  destruct (Hbal (world s)) as (b & q & Hb & Hq & Hlt).
  destruct (get_balance w3 (FROM_ADDRESS cfg) (world s)) as [r1 w1] eqn:E1.
  cbn in Hb. subst r1. cbn. rewrite Hq. cbn. rewrite Hlt. cbn.
  destruct (Hn w1) as (n & Hn1).
  destruct (get_transaction_count w3 (FROM_ADDRESS cfg) w1)
    as [r2 w2] eqn:E2.
  cbn in Hn1. subst r2. cbn.
  match goal with
  | |- context [estimate_gas w3 ?c w2] =>
      destruct (Hg c w2) as (g & Hg1);
      destruct (estimate_gas w3 c w2) as [r3 w4] eqn:E3
  end.
  cbn in Hg1. subst r3. cbn.
  destruct (g >? GAS_LIMIT cfg) eqn:Egas; cbn;
    (match goal with
     | |- context [sign_transaction w3 ?t ?k ?w] =>
         destruct (Hsg t k w) as (sg & Hsg1);
         destruct (sign_transaction w3 t k w) as [r4 w5] eqn:E4
     end;
     cbn in Hsg1; subst r4; cbn;
     destruct (Hsd (raw_transaction sg) w5) as (h & Hsd1);
     destruct (send_raw_transaction w3 (raw_transaction sg) w5)
       as [r5 w6] eqn:E5;
     cbn in Hsd1; subst r5; cbn;
     destruct (Hw h 300 w6) as (rc & Hw1 & Hst);
     destruct (wait_for_transaction_receipt w3 h 300 w6)
       as [r6 w7] eqn:E6;
     cbn in Hw1; subst r6; cbn; rewrite Hst; cbn;
     destruct (iteration s + 1 <? MAX_ITERATIONS cfg) eqn:Epause; cbn;
     do 2 eexists; (split; [reflexivity|]); flatten_trace;
     (split; [reflexivity|]); (split; [reflexivity|]);
     exists b, w1, q, n, w2, g, w4, sg, w5, h, w6, rc;
     repeat (split; [first [reflexivity | assumption]|]);
     rewrite Egas; reflexivity).
Qed.

(** From a state that is [m] successes short of the maximum, the loop
    makes [m] full iterations and ends by its condition. *)
Lemma loop_is_full m : forall s fuel,
  iteration s + Z.of_nat m = MAX_ITERATIONS cfg ->
  (m <= fuel)%nat ->
  exists s' suf,
    while fuel (loop_cond cfg) (iteration_body cfg w3) s =
      Some (Value tt, s') /\
    trace s' = trace s ++ suf /\
    full_iterations cfg w3 m (world s) (iteration s + 1) suf (world s').
Proof.
  induction m as [|m IH]; intros s fuel Hi Hf.
  - exists s, []. rewrite while_exit.
    + rewrite app_nil_r. cbn. auto.
    + unfold loop_cond. apply Z.ltb_ge. lia.
  - destruct fuel as [|fuel]; [lia|].
    destruct (pass_is_full s) as (s1 & evs & Hb & Hi1 & Ht1 & Hfull).
    destruct (IH s1 fuel) as (s' & suf & Hw & Ht & Hrest); [lia | lia |].
    assert (Hc : loop_cond cfg s = true)
      by (unfold loop_cond; apply Z.ltb_lt; lia).
    exists s', (evs ++ suf).
    rewrite (while_next _ _ _ _ _ Hc Hb).
    split; [exact Hw|]. split; [rewrite Ht, Ht1, app_assoc; reflexivity|].
    cbn [full_iterations]. exists evs, suf, (world s1).
    split; [reflexivity|]. split; [exact Hfull|].
    rewrite Hi1 in Hrest. exact Hrest.
Qed.

(** C3.  For a maximum N >= 1 and a client all of whose operations
    succeed, with the balance at or above the minimum and every receipt
    of status 1, a run with fuel for N passes ends by falling off the end
    of [main] with the counter at N, after exactly N passes, N broadcasts
    and N success lines and no stop line, and its last line is the
    summary "Hit max iterations (N). Done!".  Between the three events of
    setup and that line the trace is N full iterations, numbered 1 to N:
    each makes the balance query, the nonce fetch, the gas estimate, the
    signing, the broadcast and the receipt wait, in this order, on the
    world the step before left and with the value it produced, logs each
    step, and pauses unless it is the last. *)
Theorem all_succeed_runs_to_max w0 fuel :
  1 <= MAX_ITERATIONS cfg ->
  (Z.to_nat (MAX_ITERATIONS cfg) <= fuel)%nat ->
  exists s' tr,
    run cfg w3 fuel w0 = Some (Value tt, s') /\
    iteration s' = MAX_ITERATIONS cfg /\
    trace s' = tr ++ [Log MAGENTA (HitMax (MAX_ITERATIONS cfg))] /\
    count is_iteration_start tr = MAX_ITERATIONS cfg /\
    count is_broadcast tr = MAX_ITERATIONS cfg /\
    count is_success tr = MAX_ITERATIONS cfg /\
    count is_stop_or_success tr = MAX_ITERATIONS cfg /\
    count is_summary tr = 0 /\
    plain_text (fstring (HitMax (MAX_ITERATIONS cfg))) =
      Some ("Hit max iterations (" ++ str_int (MAX_ITERATIONS cfg) ++
            "). Done!")%string /\
    exists wS iterations,
      is_connected w3 w0 = (Ok true, wS) /\
      tr =
        [Call IsConnected; Call (FromKey (PRIVATE_KEY cfg));
         Log GREEN SetupOk] ++ iterations /\
      full_iterations cfg w3 (Z.to_nat (MAX_ITERATIONS cfg)) wS 1
        iterations (world s').
Proof.
  intros HN Hf.
  destruct (setup_succeeds_world w0) as (a & s0 & wS & Hs & Hconn & HwS).
  pose proof (setup_value _ _ _ _ _ Hs) as Ht0.
  destruct (loop_succeeds (Z.to_nat (MAX_ITERATIONS cfg)) (loop_entry s0) fuel)
    as (s1 & suf & Hw & Hi & Ht & B1 & B2 & B3 & B4 & B5);
    [cbn; lia | exact Hf |].
  destruct (loop_is_full (Z.to_nat (MAX_ITERATIONS cfg)) (loop_entry s0) fuel)
    as (s2 & suf2 & Hw2 & Ht2 & Hfull);
    [cbn; lia | exact Hf |].
  rewrite Hw in Hw2. injection Hw2 as <-.
  rewrite Ht in Ht2. apply app_inv_head in Ht2. subst suf2.
  rewrite (run_after_setup _ _ _ _ _ _ Hs).
  rewrite (bind_value _ _ _ _ _ Hw).
  unfold_program. rewrite Hi.
  replace (MAX_ITERATIONS cfg >=? MAX_ITERATIONS cfg) with true
    by (symmetry; apply Z.geb_le; lia).
  do 2 eexists. split; [reflexivity|]. cbn [iteration trace world].
  split; [exact Hi|]. split; [reflexivity|].
  rewrite Ht. cbn [loop_entry trace]. rewrite Ht0, !count_app.
  rewrite B1, B2, B3, B4, B5. cbn [count filter is_iteration_start
    is_broadcast is_success is_stop_or_success is_summary List.length].
  repeat (split; [cbn; lia|]). split; [reflexivity|].
  exists wS, suf. split; [exact Hconn|]. split; [reflexivity|].
  cbn [loop_entry world iteration] in Hfull. rewrite HwS in Hfull.
  exact Hfull.
Qed.
End ExhaustionClaims.

(** C3 at a maximum of 3 with the healthy node: three full iterations,
    three successes, and the last line reads
    "Hit max iterations (3). Done!". *)
Lemma all_succeed_runs_to_max_witness :
  always_succeeds (Stubs.config 3) Stubs.healthy /\
  exists s' tr,
    run (Stubs.config 3) Stubs.healthy 3 0%nat = Some (Value tt, s') /\
    iteration s' = 3 /\
    trace s' = tr ++ [Log MAGENTA (HitMax 3)] /\
    count is_iteration_start tr = 3 /\
    count is_broadcast tr = 3 /\
    count is_success tr = 3 /\
    count is_stop_or_success tr = 3 /\
    count is_summary tr = 0 /\
    plain_text (fstring (HitMax 3)) = Some "Hit max iterations (3). Done!" /\
    exists wS iterations,
      is_connected Stubs.healthy 0%nat = (Ok true, wS) /\
      tr =
        [Call IsConnected; Call (FromKey "0x01"); Log GREEN SetupOk] ++
        iterations /\
      full_iterations (Stubs.config 3) Stubs.healthy 3 wS 1 iterations
        (world s').
Proof.
  assert (H : always_succeeds (Stubs.config 3) Stubs.healthy).
  { unfold always_succeeds. cbn.
    repeat split; intros; repeat eexists; reflexivity. }
  split; [exact H|].
  apply (all_succeed_runs_to_max (Stubs.config 3) Stubs.healthy H 0%nat 3%nat).
  - cbn. lia.
  - cbn. lia.
Defined.

(** ** The summary *)

Lemma count_zero_not_in p (ev : event) tr :
  count p tr = 0 -> In ev tr -> p ev = false.
Proof.
  unfold count. induction tr as [|x tr IH]; intros Hc Hin.
  - destruct Hin.
  - cbn in Hc. destruct (p x) eqn:Hx.
    + cbn in Hc. lia.
    + destruct Hin as [<- | Hin]; [exact Hx | exact (IH Hc Hin)].
Qed.

Section SummaryClaims.
Variable cfg : RunConfig.
Context {W : Type}.
Variable w3 : ChainClient W.

(** Setup ends with the account or by [return], and logs no summary. *)
Lemma setup_outcomes w0 :
  exists o s0,
    setup cfg w3 (initial w0) = Some (o, s0) /\
    ((exists a, o = Value a) \/ o = Return) /\
    count is_summary (trace s0) = 0.
Proof.
  unfold_program. all_cases;
    (do 2 eexists; split; [reflexivity|]; split; [eauto | reflexivity]).
Qed.

(** C9.  A run that ends has either left [main] by an early [return],
    and then its trace has no summary line at all, or left the loop by
    its condition, and then the counter is at least the maximum, equal to
    it when the maximum is not negative, and the one summary line, the
    last event, is "Hit max iterations".  The line "Stopped early" is in
    no trace. *)
Theorem stopped_early_line_unreachable fuel w0 o s' :
  run cfg w3 fuel w0 = Some (o, s') ->
  (forall c, ~ In (Log c StoppedEarly) (trace s')) /\
  ((o = Return /\ count is_summary (trace s') = 0) \/
   (o = Value tt /\
    exists a s0 s1,
      setup cfg w3 (initial w0) = Some (Value a, s0) /\
      while fuel (loop_cond cfg) (iteration_body cfg w3) (loop_entry s0) =
        Some (Value tt, s1) /\
      MAX_ITERATIONS cfg <= iteration s1 /\
      (0 <= MAX_ITERATIONS cfg -> iteration s1 = MAX_ITERATIONS cfg) /\
      count is_summary (trace s1) = 0 /\
      iteration s' = iteration s1 /\
      trace s' = trace s1 ++ [Log MAGENTA (HitMax (MAX_ITERATIONS cfg))])).
Proof.
  intros Hrun.
  assert (Hnot : forall tr,
             count is_summary tr = 0 ->
             forall c, ~ In (Log c StoppedEarly) tr).
  { intros tr Hc c Hin.
    pose proof (count_zero_not_in _ _ _ Hc Hin) as Hp. discriminate Hp. }
  destruct (setup_outcomes w0) as (o0 & s0 & Hs & Ho & Hsum).
  destruct Ho as [(a & ->) | ->].
  - rewrite (run_after_setup _ _ _ _ _ _ Hs) in Hrun.
    unfold bind in Hrun.
    destruct (while fuel (loop_cond cfg) (iteration_body cfg w3)
                (loop_entry s0)) as [[o1 s1]|] eqn:Hw; [|discriminate].
    destruct (while_spec cfg w3 fuel _ _ _ (invariant_entry _ _ _ _ _ Hs) Hw)
      as ((I1 & I2 & I3) & Ho1).
    destruct Ho1 as [-> | (-> & Hc)].
    + injection Hrun as <- <-. split; [exact (Hnot _ I1)|]. left. auto.
    + unfold loop_cond in Hc. apply Z.ltb_ge in Hc.
      unfold summary, bind, get_iteration, log, emit in Hrun.
      replace (iteration s1 >=? MAX_ITERATIONS cfg) with true in Hrun
        by (symmetry; apply Z.geb_le; lia).
      injection Hrun as <- <-. cbn [trace iteration]. split.
      * intros c Hin. apply in_app_or in Hin. destruct Hin as [Hin | Hin].
        -- exact (Hnot _ I1 c Hin).
        -- destruct Hin as [Hin | []]. discriminate Hin.
      * right. split; [reflexivity|]. exists a, s0, s1.
        repeat split; try assumption; try reflexivity; lia.
  - unfold run, main in Hrun. rewrite (bind_return _ _ _ _ Hs) in Hrun.
    injection Hrun as <- <-. split; [exact (Hnot _ Hsum)|]. left. auto.
Qed.
End SummaryClaims.

(** C9 at the healthy node with a maximum of 3. *)
Lemma stopped_early_line_unreachable_witness :
  exists o s',
    run (Stubs.config 3) Stubs.healthy 3 0%nat = Some (o, s') /\
    o = Value tt /\
    iteration s' = 3 /\
    forall c, ~ In (Log c StoppedEarly) (trace s').
Proof.
  destruct (run (Stubs.config 3) Stubs.healthy 3 0%nat) as [[o s']|] eqn:E.
  - destruct (stopped_early_line_unreachable _ _ _ _ _ _ E) as (Hnot & Hcase).
    exists o, s'. split; [reflexivity|].
    destruct Hcase
      as [(-> & _) | (-> & a & s0 & s1 & _ & _ & _ & Hmax & _ & Hi & _)].
    + vm_compute in E. discriminate E.
    + split; [reflexivity|]. split; [|exact Hnot].
      rewrite Hi. apply Hmax. cbn. lia.
  - vm_compute in E. discriminate E.
Defined.

(** ** Determinism *)

Section TwoClientsFacts.
Context {W1 W2 : Type}.
Variable c1 : ChainClient W1.
Variable c2 : ChainClient W2.
Variable R : W1 -> W2 -> Prop.

Lemma ret_related {A} (a : A) : M_related R (ret a) (ret a).
Proof. intros s1 s2 H. cbn. auto. Qed.

Lemma raise_related {A} e : M_related R (@raise W1 A e) (@raise W2 A e).
Proof. intros s1 s2 H. cbn. auto. Qed.

Lemma return_related {A} : M_related R (@return_ W1 A) (@return_ W2 A).
Proof. intros s1 s2 H. cbn. auto. Qed.

Lemma bind_related {A B} (m1 : M W1 A) (m2 : M W2 A)
  (f1 : A -> M W1 B) (f2 : A -> M W2 B) :
  M_related R m1 m2 -> (forall a, M_related R (f1 a) (f2 a)) ->
  M_related R (bind m1 f1) (bind m2 f2).
Proof.
  intros Hm Hf s1 s2 H. specialize (Hm s1 s2 H). unfold bind.
  destruct (m1 s1) as [[o1 t1]|], (m2 s2) as [[o2 t2]|]; cbn in Hm;
    try contradiction; [|exact I].
  destruct Hm as (<- & Ht). destruct o1 as [a|e|]; cbn; auto.
  exact (Hf a t1 t2 Ht).
Qed.

Lemma try_except_related {A} (m1 : M W1 A) (m2 : M W2 A)
  (h1 : exn -> M W1 A) (h2 : exn -> M W2 A) :
  M_related R m1 m2 -> (forall e, M_related R (h1 e) (h2 e)) ->
  M_related R (try_except m1 h1) (try_except m2 h2).
Proof.
  intros Hm Hh s1 s2 H. specialize (Hm s1 s2 H). unfold try_except.
  destruct (m1 s1) as [[o1 t1]|], (m2 s2) as [[o2 t2]|]; cbn in Hm;
    try contradiction; [|exact I].
  destruct Hm as (<- & Ht). destruct o1 as [a|e|]; cbn; auto.
  exact (Hh e t1 t2 Ht).
Qed.

Lemma emit_related ev : M_related R (emit ev) (emit ev).
Proof.
  intros s1 s2 (Hw & Hi & Ht). cbn. unfold related. cbn.
  rewrite Ht. auto.
Qed.

Lemma log_related m c : M_related R (log m c) (log m c).
Proof. apply emit_related. Qed.

Lemma compute_related {A} (r : result A) :
  M_related R (compute r) (compute r).
Proof. intros s1 s2 H. unfold compute. destruct r; cbn; auto. Qed.

Lemma get_iteration_related : M_related R get_iteration get_iteration.
Proof.
  intros s1 s2 H. cbn. split; [|exact H].
  destruct H as (_ & Hi & _). rewrite Hi. reflexivity.
Qed.

Lemma set_iteration_related i :
  M_related R (set_iteration i) (set_iteration i).
Proof.
  intros s1 s2 (Hw & Hi & Ht). cbn. unfold related. cbn. auto.
Qed.

(** A call that both clients answer alike in related worlds. *)
Lemma perform_related {A} c (op1 : W1 -> result A * W1)
  (op2 : W2 -> result A * W2) :
  (forall w1 w2, R w1 w2 -> same_answer R (op1 w1) (op2 w2)) ->
  M_related R (perform c op1) (perform c op2).
Proof.
  intros Hop s1 s2 (Hw & Hi & Ht). unfold perform.
  destruct (Hop _ _ Hw) as (Hr & Hw').
  destruct (op1 (world s1)) as [r1 w1], (op2 (world s2)) as [r2 w2].
  cbn in Hr, Hw'. subst r2.
  destruct r1; cbn; unfold related; cbn; rewrite Ht; auto.
Qed.

Lemma while_related fuel (cond1 : state W1 -> bool)
  (cond2 : state W2 -> bool) (b1 : M W1 unit) (b2 : M W2 unit) :
  (forall s1 s2, related R s1 s2 -> cond1 s1 = cond2 s2) ->
  M_related R b1 b2 ->
  M_related R (while fuel cond1 b1) (while fuel cond2 b2).
Proof.
  intros Hc Hb. induction fuel as [|fuel IH]; intros s1 s2 H.
  - cbn. rewrite <- (Hc _ _ H). destruct (cond1 s1); cbn; auto.
  - cbn. rewrite <- (Hc _ _ H). destruct (cond1 s1); cbn; auto.
    apply bind_related; auto.
Qed.

Hypothesis alike : same_responses c1 c2 R.

Variable cfg : RunConfig.

Lemma setup_web3_related :
  M_related R (setup_web3 cfg c1) (setup_web3 cfg c2).
Proof.
  destruct alike as (Hv & Hk & _ & Hops).
  unfold setup_web3. rewrite Hv, Hk.
  destruct (str_lt (web3_version c2) "6.0.0").
  - apply raise_related.
  - apply bind_related.
    + apply perform_related. intros w1 w2 Hw. apply (Hops w1 w2 Hw).
    + intros connected. destruct (negb connected).
      * apply raise_related.
      * apply bind_related.
        -- apply bind_related; [apply emit_related|].
           intros _. apply compute_related.
        -- intros a. destruct (str_ne _ _);
             [apply raise_related | apply ret_related].
Qed.

(** One step of a proof that two blocks built alike are related. *)
Ltac related_step Hwei Hops :=
  first
    [ apply bind_related
    | apply try_except_related
    | apply log_related
    | apply emit_related
    | apply ret_related
    | apply return_related
    | apply raise_related
    | apply get_iteration_related
    | apply set_iteration_related
    | rewrite Hwei; apply compute_related
    | apply perform_related;
      let w1 := fresh "w" in let w2 := fresh "w" in let Hw := fresh "Hw" in
      intros w1 w2 Hw; apply (Hops w1 w2 Hw)
    | match goal with
      | |- M_related _ (if ?b then _ else _) (if ?b then _ else _) =>
          destruct b
      end
    | intro ].

Lemma iteration_body_related :
  M_related R (iteration_body cfg c1) (iteration_body cfg c2).
Proof.
  destruct alike as (_ & _ & Hwei & Hops).
  unfold iteration_body, balance_check, build_tx, gas_estimate, sign_tx,
    send_tx, pause, sleep.
  repeat related_step Hwei Hops.
Qed.

Lemma main_related fuel :
  M_related R (main cfg c1 fuel) (main cfg c2 fuel).
Proof.
  unfold main, setup, mint_loop, summary.
  apply bind_related.
  { apply try_except_related.
    - apply bind_related; [exact setup_web3_related|].
      intros a. apply bind_related; [apply log_related|].
      intros _. apply ret_related.
    - intros e. apply bind_related; [apply log_related|].
      intros _. apply return_related. }
  intros _. apply bind_related.
  { apply bind_related; [apply set_iteration_related|].
    intros _. apply while_related; [|exact iteration_body_related].
    intros s1 s2 (_ & Hi & _). unfold loop_cond. rewrite Hi. reflexivity. }
  intros _. apply bind_related; [apply get_iteration_related|].
  intros i. destruct (i >=? MAX_ITERATIONS cfg); apply log_related.
Qed.

(** C8.  Two runs under the same configuration, with the same fuel,
    against clients that answer every operation alike, end alike: both
    without a result, or with the same way of leaving [main], the same
    counter and the same trace; hence with the same sequence, and the
    same number, of stop and success lines. *)
Theorem same_responses_same_events fuel w1 w2 :
  R w1 w2 ->
  option_map observable (run cfg c1 fuel w1) =
    option_map observable (run cfg c2 fuel w2) /\
  option_map stop_and_success_events (run cfg c1 fuel w1) =
    option_map stop_and_success_events (run cfg c2 fuel w2) /\
  option_map (fun r => count is_stop_or_success (trace (snd r)))
    (run cfg c1 fuel w1) =
    option_map (fun r => count is_stop_or_success (trace (snd r)))
      (run cfg c2 fuel w2).
Proof.
  intros Hw.
  assert (H : related_results R (run cfg c1 fuel w1) (run cfg c2 fuel w2)).
  { apply main_related. unfold related, initial. cbn. auto. }
  destruct (run cfg c1 fuel w1) as [[o1 s1]|],
           (run cfg c2 fuel w2) as [[o2 s2]|];
    cbn in H; try contradiction; [|auto].
  destruct H as (<- & _ & Hi & Ht).
  unfold observable, stop_and_success_events. cbn.
  rewrite Hi, Ht. auto.
Qed.
End TwoClientsFacts.

(** C8 for the healthy node behind two clients that keep their state in
    different forms. *)
Lemma same_responses_same_events_witness :
  same_responses Stubs.healthy Stubs.healthy_N (fun k m => m = N.of_nat k) /\
  option_map stop_and_success_events
    (run (Stubs.config 3) Stubs.healthy 5 0%nat) =
  option_map stop_and_success_events
    (run (Stubs.config 3) Stubs.healthy_N 5 0%N).
Proof.
  assert (H : same_responses Stubs.healthy Stubs.healthy_N
                (fun k m => m = N.of_nat k)).
  { unfold same_responses, same_answer. cbn.
    repeat split; intros; subst; rewrite ?Nat2N.id;
      first [ reflexivity
            | exact (Nat2N.inj_succ _)
            | symmetry; exact (Nat2N.inj_succ _) ]. }
  split; [exact H|].
  apply (same_responses_same_events Stubs.healthy Stubs.healthy_N
           (fun k m => m = N.of_nat k) H (Stubs.config 3) 5%nat 0%nat 0%N).
  reflexivity.
Defined.

(** ** Where the program does not stop *)

Section FallThrough.
Variable cfg : RunConfig.
Context {W : Type}.
Variable w3 : ChainClient W.

(** When the balance query raises, the pass logs the failure and goes on
    to fetch the nonce: the handler at line 72 does not return. *)
Lemma balance_error_falls_through s e w1 :
  get_balance w3 (FROM_ADDRESS cfg) (world s) = (Err e, w1) ->
  exists o s' rest,
    iteration_body cfg w3 s = Some (o, s') /\
    trace s' =
      trace s ++
      Log CYAN (IterationStart (iteration s + 1) (MAX_ITERATIONS cfg))
      :: Call (GetBalance (FROM_ADDRESS cfg))
      :: Log RED (BalanceCheckFailed e)
      :: Call (GetTransactionCount (FROM_ADDRESS cfg))
      :: rest.
Proof.
  intros H. unfold_program. cbn. rewrite H. cbn.
  all_cases; (do 3 eexists; split; [reflexivity|]; flatten_trace;
              reflexivity).
Qed.

(** When the receipt has a status other than 1, the pass logs the
    failure and falls through to the pause with the counter unchanged:
    the branch at line 122 does not return, and the loop, whose condition
    still holds, makes another pass. *)
Lemma failed_receipt_falls_through s sg s1 h w rc w' :
  loop_cond cfg s = true ->
  upto_sign_tx cfg w3 s = Some (Value sg, s1) ->
  send_raw_transaction w3 (raw_transaction sg) (world s1) = (Ok h, w) ->
  wait_for_transaction_receipt w3 h 300 w = (Ok rc, w') ->
  status rc <> 1 ->
  exists s',
    iteration_body cfg w3 s = Some (Value tt, s') /\
    iteration s' = iteration s /\
    loop_cond cfg s' = true /\
    trace s' =
      trace s1 ++
      [Call (SendRawTransaction (raw_transaction sg));
       Log GREEN (TxSent h);
       Call (WaitForTransactionReceipt h 300);
       Log CYAN (Mined (blockNumber rc));
       Log RED TxFailed;
       Log WHITE (Chilling (DELAY_SECONDS cfg));
       Sleep (DELAY_SECONDS cfg)].
Proof.
  intros Hc Hp Hs Hw Hst.
  destruct (upto_sign_tx_quiet _ _ _ _ _ Hp) as (_ & _ & _ & _ & _ & _ & Hi).
  rewrite iteration_body_split, (bind_value _ _ _ _ _ Hp).
  unfold loop_cond in *. apply Z.eqb_neq in Hst.
  unfold_program. rewrite Hs. cbn. rewrite Hw. cbn. rewrite Hst. cbn.
  rewrite Hi, Hc. cbn. eexists. split; [reflexivity|].
  flatten_trace. auto.
Qed.
End FallThrough.

(** With a client whose every receipt has status 0, a pass from a counter
    of 0 under a maximum of 1 ends with the counter at 0. *)
Lemma reverting_pass s :
  iteration s = 0 ->
  exists s',
    iteration_body (Stubs.config 1) Stubs.always_reverts s =
      Some (Value tt, s') /\
    iteration s' = 0.
Proof.
  destruct s as [k i tr]. cbn. intros ->.
  eexists. split; [vm_compute; reflexivity | reflexivity].
Qed.

(** Such a run never ends: whatever the fuel, the loop uses it up. *)
Lemma always_reverts_never_ends fuel :
  run (Stubs.config 1) Stubs.always_reverts fuel 0%nat = None.
Proof.
  assert (H : forall f s,
             iteration s = 0 ->
             while f (loop_cond (Stubs.config 1))
               (iteration_body (Stubs.config 1) Stubs.always_reverts) s =
             None).
  { induction f as [|f IH]; intros s Hi.
    - cbn. unfold loop_cond. rewrite Hi. reflexivity.
    - destruct (reverting_pass s Hi) as (s' & Hb & Hi').
      assert (Hc : loop_cond (Stubs.config 1) s = true)
        by (unfold loop_cond; rewrite Hi; reflexivity).
      rewrite (while_next _ _ _ _ _ Hc Hb). exact (IH s' Hi'). }
  assert (Hs : setup (Stubs.config 1) Stubs.always_reverts (initial 0%nat) =
               Some (Value Stubs.the_account,
                     {| world := 0%nat; iteration := 0;
                        trace := [Call IsConnected; Call (FromKey "0x01");
                                  Log GREEN SetupOk] |}))
    by reflexivity.
  rewrite (run_after_setup _ _ _ _ _ _ Hs). unfold bind.
  rewrite H; reflexivity.
Qed.

(** C1.  The balance query raises in the first pass of a run with a
    maximum of 1.  The program logs "Balance check failed ... Gracefully
    stopping." and does not stop: the same pass builds, signs and
    broadcasts a transaction, counts a success, and the run ends with the
    summary of a full run. *)
Theorem balance_query_error_does_not_stop :
  option_map observable (run (Stubs.config 1) Stubs.balance_outage 3 0%nat) =
  Some
    (Value tt, 1,
     [Call IsConnected;
      Call (FromKey "0x01");
      Log GREEN SetupOk;
      Log CYAN (IterationStart 1 1);
      Call (GetBalance "0xabcd000000000000000000000000000000001234");
      Log RED (BalanceCheckFailed "502 Server Error");
      Call (GetTransactionCount "0xabcd000000000000000000000000000000001234");
      Call (EstimateGas Stubs.gas_call);
      Call (SignTransaction (Stubs.tx 0) "0x01");
      Call (SendRawTransaction "0x02f8");
      Log GREEN (TxSent "0xabcd");
      Call (WaitForTransactionReceipt "0xabcd" 300);
      Log CYAN (Mined 1001);
      Log GREEN MintSuccessful;
      Log MAGENTA (HitMax 1)]).
Proof. vm_compute. reflexivity. Qed.

(** C2.  The first transaction of a run with a maximum of 1 is mined with
    status 0.  The program logs "Tx failed. Gracefully stopping." and does
    not stop: it pauses, makes another pass under the same iteration
    number, broadcasts again, and ends with one success and the summary of
    a full run. *)
Theorem failed_receipt_does_not_stop :
  option_map observable (run (Stubs.config 1) Stubs.first_reverts 3 0%nat) =
  Some
    (Value tt, 1,
     [Call IsConnected;
      Call (FromKey "0x01");
      Log GREEN SetupOk;
      Log CYAN (IterationStart 1 1);
      Call (GetBalance "0xabcd000000000000000000000000000000001234");
      Log WHITE (BalanceOk (5000000000000000000 # 1000000000000000000));
      Call (GetTransactionCount "0xabcd000000000000000000000000000000001234");
      Call (EstimateGas Stubs.gas_call);
      Call (SignTransaction (Stubs.tx 0) "0x01");
      Call (SendRawTransaction "0x02f8");
      Log GREEN (TxSent "0xabcd");
      Call (WaitForTransactionReceipt "0xabcd" 300);
      Log CYAN (Mined 1001);
      Log RED TxFailed;
      Log WHITE (Chilling (2 # 1));
      Sleep (2 # 1);
      Log CYAN (IterationStart 1 1);
      Call (GetBalance "0xabcd000000000000000000000000000000001234");
      Log WHITE (BalanceOk (5000000000000000000 # 1000000000000000000));
      Call (GetTransactionCount "0xabcd000000000000000000000000000000001234");
      Call (EstimateGas Stubs.gas_call);
      Call (SignTransaction (Stubs.tx 1) "0x01");
      Call (SendRawTransaction "0x02f8");
      Log GREEN (TxSent "0xabcd");
      Call (WaitForTransactionReceipt "0xabcd" 300);
      Log CYAN (Mined 1002);
      Log GREEN MintSuccessful;
      Log MAGENTA (HitMax 1)]).
Proof. vm_compute. reflexivity. Qed.

(** * Further properties *)

(** ** The steps of a pass *)

Section StepFacts.
Variable cfg : RunConfig.
Context {W : Type}.
Variable w3 : ChainClient W.

(** When the gas estimate raises in the pass the run logs as iteration k,
    the run ends by [return] after the yellow line that reports it: that
    pass neither signs nor broadcasts, and the counter and the number of
    successes logged stay k - 1. *)
Theorem gas_estimation_error_stops_run w0 n s t s2 e w :
  starts_pass cfg w3 w0 n s ->
  upto_build_tx cfg w3 s = Some (Value t, s2) ->
  estimate_gas w3
    {| call_from := FROM_ADDRESS cfg; call_to := TO_ADDRESS cfg;
       call_data := BASE_DATA cfg |} (world s2) = (Err e, w) ->
  exists s',
    (forall fuel, (n < fuel)%nat ->
       run cfg w3 fuel w0 = Some (Return, s')) /\
    trace s' =
      trace s2 ++
      [Call (EstimateGas
               {| call_from := FROM_ADDRESS cfg; call_to := TO_ADDRESS cfg;
                  call_data := BASE_DATA cfg |});
       Log YELLOW (GasEstimationFailed e)] /\
    iteration s' = (iteration s + 1) - 1 /\
    count is_success (trace s') = (iteration s + 1) - 1 /\
    count is_broadcast (trace s') = count is_broadcast (trace s) /\
    count is_summary (trace s') = 0.
Proof.
  intros Hs Hp He.
  destruct (invariant_starts_pass _ _ _ _ _ Hs) as (I1 & I2 & _).
  destruct (upto_build_tx_quiet _ _ _ _ _ Hp)
    as ((mid & Ht & _ & M2 & M3 & M4 & Hi) & _).
  eexists. split.
  { intros fuel Hf. refine (run_returns_in_pass _ _ _ _ _ _ Hs _ fuel Hf).
    rewrite iteration_body_after_build_tx, (bind_value _ _ _ _ _ Hp).
    unfold_program. cbn. rewrite He. cbn. reflexivity. }
  flatten_trace. split; [reflexivity|]. split; [lia|].
  rewrite Ht.
  change (Log CYAN (IterationStart (iteration s + 1) (MAX_ITERATIONS cfg))
            :: mid)
    with ([Log CYAN (IterationStart (iteration s + 1) (MAX_ITERATIONS cfg))]
            ++ mid).
  rewrite !count_app. cbn. repeat split; lia.
Qed.

(** When the gas estimate is at or below the configured limit, the pass
    logs nothing about it: the call that follows the estimate is the
    signing of the transaction built before it. *)
Theorem gas_estimate_within_limit_is_silent s t s2 g w :
  upto_build_tx cfg w3 s = Some (Value t, s2) ->
  estimate_gas w3
    {| call_from := FROM_ADDRESS cfg; call_to := TO_ADDRESS cfg;
       call_data := BASE_DATA cfg |} (world s2) = (Ok g, w) ->
  g <= GAS_LIMIT cfg ->
  exists o s' rest,
    iteration_body cfg w3 s = Some (o, s') /\
    trace s' =
      trace s2 ++
      Call (EstimateGas
              {| call_from := FROM_ADDRESS cfg; call_to := TO_ADDRESS cfg;
                 call_data := BASE_DATA cfg |})
      :: Call (SignTransaction t (PRIVATE_KEY cfg))
      :: rest.
Proof.
  intros Hp He Hg.
  rewrite iteration_body_after_build_tx, (bind_value _ _ _ _ _ Hp).
  assert (Hgt : (g >? GAS_LIMIT cfg) = false)
    by (rewrite Z.gtb_ltb; apply Z.ltb_ge; lia).
  unfold_program. cbn. rewrite He. cbn. rewrite Hgt. cbn.
  all_cases; (do 3 eexists; split; [reflexivity|]; flatten_trace;
              reflexivity).
Qed.

(** When the balance is at or above the minimum, equality included, the
    pass logs it and goes on to fetch the nonce.  The minimum is the exact
    value of the float [MIN_BALANCE_SOMI], which need not be the decimal
    written in the environment (see [tenth_is_below_float_tenth]). *)
Theorem sufficient_balance_proceeds s b w1 q :
  get_balance w3 (FROM_ADDRESS cfg) (world s) = (Ok b, w1) ->
  from_wei w3 b = Ok q ->
  (MIN_BALANCE_SOMI cfg <= q)%Q ->
  exists o s' rest,
    iteration_body cfg w3 s = Some (o, s') /\
    trace s' =
      trace s ++
      Log CYAN (IterationStart (iteration s + 1) (MAX_ITERATIONS cfg))
      :: Call (GetBalance (FROM_ADDRESS cfg))
      :: Log WHITE (BalanceOk q)
      :: Call (GetTransactionCount (FROM_ADDRESS cfg))
      :: rest.
Proof.
  intros Hb Hq Hle.
  assert (Hlt : Qltb q (MIN_BALANCE_SOMI cfg) = false).
  { unfold Qltb. apply negb_false_iff. apply Qle_bool_iff. exact Hle. }
  unfold_program. cbn. rewrite Hb. cbn. rewrite Hq. cbn. rewrite Hlt. cbn.
  all_cases; (do 3 eexists; split; [reflexivity|]; flatten_trace;
              reflexivity).
Qed.
End StepFacts.

(** The gas estimate raises in the first pass: the run ends there with no
    success and no broadcast. *)
Lemma gas_estimation_error_stops_run_witness :
  starts_pass (Stubs.config 3) Cases.gas_outage 0%nat 0
    Cases.gas_outage_first_pass /\
  exists s',
    run (Stubs.config 3) Cases.gas_outage 5 0%nat = Some (Return, s') /\
    iteration s' = 0 /\
    count is_success (trace s') = 0 /\
    count is_broadcast (trace s') = 0.
Proof.
  assert (Hs : starts_pass (Stubs.config 3) Cases.gas_outage 0%nat 0
                 Cases.gas_outage_first_pass)
    by (vm_compute; reflexivity).
  split; [exact Hs|].
  eassert (Hp : upto_build_tx (Stubs.config 3) Cases.gas_outage
                  Cases.gas_outage_first_pass = Some (Value _, _))
    by (vm_compute; reflexivity).
  destruct (gas_estimation_error_stops_run (Stubs.config 3) Cases.gas_outage
              0%nat 0%nat _ _ _ "execution reverted" 1%nat Hs Hp eq_refl)
    as (s' & Hrun & _ & Hi & Hc & Hb & _).
  exists s'. split; [apply Hrun; lia|]. split; [exact Hi|].
  split; [exact Hc | exact Hb].
Defined.

(** An estimate equal to the limit: no warning. *)
Lemma gas_estimate_within_limit_is_silent_witness :
  exists t s2 o s' rest,
    upto_build_tx (Stubs.config 3) Cases.at_limit Cases.at_limit_first_pass =
      Some (Value t, s2) /\
    iteration_body (Stubs.config 3) Cases.at_limit Cases.at_limit_first_pass =
      Some (o, s') /\
    trace s' =
      trace s2 ++
      Call (EstimateGas Stubs.gas_call)
      :: Call (SignTransaction t "0x01")
      :: rest.
Proof.
  do 2 eexists.
  assert (Hp : upto_build_tx (Stubs.config 3) Cases.at_limit
                 Cases.at_limit_first_pass = Some (Value _, _))
    by (vm_compute; reflexivity).
  destruct (gas_estimate_within_limit_is_silent (Stubs.config 3)
              Cases.at_limit _ _ _ 200000 1%nat Hp eq_refl)
    as (o & s' & rest & Hb & Ht).
  - cbn. lia.
  - exists o, s', rest. split; [exact Hp|]. split; [exact Hb | exact Ht].
Defined.

(** A balance of 0.5 ether under a minimum of 0.5, a value of a [float]:
    the pass goes on. *)
Lemma sufficient_balance_proceeds_witness :
  exists o s' rest,
    iteration_body (Stubs.config 3) Cases.at_minimum
      Cases.at_minimum_first_pass = Some (o, s') /\
    trace s' =
      trace Cases.at_minimum_first_pass ++
      Log CYAN (IterationStart 1 3)
      :: Call (GetBalance "0xabcd000000000000000000000000000000001234")
      :: Log WHITE (BalanceOk (500000000000000000 # 1000000000000000000))
      :: Call (GetTransactionCount
                 "0xabcd000000000000000000000000000000001234")
      :: rest.
Proof.
  apply (sufficient_balance_proceeds (Stubs.config 3) Cases.at_minimum
           Cases.at_minimum_first_pass 500000000000000000 1%nat
           (500000000000000000 # 1000000000000000000) eq_refl eq_refl).
  vm_compute. discriminate.
Defined.

(** ** Setup, case by case *)

Section SetupFacts.
Variable cfg : RunConfig.
Context {W : Type}.
Variable w3 : ChainClient W.

(** [setup_web3] returns the account exactly when the version string is
    not below "6.0.0", the connectivity check answers True, the key
    yields an account and its address equals the configured source address
    after lower-casing both; it has then made its two calls and no other. *)
Theorem setup_web3_succeeds_iff w0 a s0 :
  setup_web3 cfg w3 (initial w0) = Some (Value a, s0) <->
  (str_lt (web3_version w3) "6.0.0" = false /\
   is_connected w3 w0 = (Ok true, world s0) /\
   from_key w3 (PRIVATE_KEY cfg) = Ok a /\
   lower (address a) = lower (FROM_ADDRESS cfg) /\
   iteration s0 = 0 /\
   trace s0 = [Call IsConnected; Call (FromKey (PRIVATE_KEY cfg))]).
Proof.
  unfold setup_web3, str_ne. split.
  - unfold_program. all_cases; intros H; try discriminate H.
    injection H as <- <-. cbn.
    repeat match goal with
           | E : negb _ = false |- _ => apply negb_false_iff in E
           end.
    repeat split; auto.
    + subst. reflexivity.
    + apply String.eqb_eq. assumption.
  - intros (Hv & Hc & Hk & Hl & Hi & Ht). destruct s0 as [w i tr].
    cbn in Hc, Hi, Ht. subst i tr.
    unfold_program. rewrite Hv. cbn. rewrite Hc. cbn. rewrite Hk. cbn.
    rewrite Hl, String.eqb_refl. cbn. reflexivity.
Qed.

(** When setup fails after the version check, the "Setup crashed" line
    names the cause and the calls stop at the failing step: an exception of
    the connectivity check or of the key derivation is reported by its own
    message, an endpoint that answers False and an address mismatch by the
    program's messages; the key is not touched unless the endpoint
    answered True. *)
Theorem setup_crash_names_cause w0 fuel :
  str_lt (web3_version w3) "6.0.0" = false ->
  (forall e w,
     is_connected w3 w0 = (Err e, w) ->
     option_map observable (run cfg w3 fuel w0) =
       Some (Return, 0, [Call IsConnected; Log RED (SetupCrashed e)])) /\
  (forall w,
     is_connected w3 w0 = (Ok false, w) ->
     option_map observable (run cfg w3 fuel w0) =
       Some (Return, 0,
             [Call IsConnected;
              Log RED
                (SetupCrashed
                   "RPC connection failed. Check URL or network.")])) /\
  (forall w e,
     is_connected w3 w0 = (Ok true, w) ->
     from_key w3 (PRIVATE_KEY cfg) = Err e ->
     option_map observable (run cfg w3 fuel w0) =
       Some (Return, 0,
             [Call IsConnected; Call (FromKey (PRIVATE_KEY cfg));
              Log RED (SetupCrashed e)])) /\
  (forall w a,
     is_connected w3 w0 = (Ok true, w) ->
     from_key w3 (PRIVATE_KEY cfg) = Ok a ->
     lower (address a) <> lower (FROM_ADDRESS cfg) ->
     option_map observable (run cfg w3 fuel w0) =
       Some (Return, 0,
             [Call IsConnected; Call (FromKey (PRIVATE_KEY cfg));
              Log RED
                (SetupCrashed
                   "Private key and from address don’t match.")])).
Proof.
  intros Hv. unfold run, main. repeat split.
  - intros e w Hc. unfold_program. rewrite Hv. cbn. rewrite Hc. reflexivity.
  - intros w Hc. unfold_program. rewrite Hv. cbn. rewrite Hc. reflexivity.
  - intros w e Hc Hk. unfold_program. rewrite Hv. cbn. rewrite Hc. cbn.
    rewrite Hk. reflexivity.
  - intros w a Hc Hk Hne. unfold_program. rewrite Hv. cbn. rewrite Hc. cbn.
    rewrite Hk. cbn. unfold str_ne.
    apply String.eqb_neq in Hne. rewrite Hne. reflexivity.
Qed.

(** With a maximum of zero or less the loop makes no pass: after setup
    the run logs the summary of a full run and ends, whatever the fuel. *)
Theorem nonpositive_max_makes_no_pass w0 fuel a s0 :
  MAX_ITERATIONS cfg <= 0 ->
  setup cfg w3 (initial w0) = Some (Value a, s0) ->
  option_map observable (run cfg w3 fuel w0) =
    Some (Value tt, 0,
          [Call IsConnected; Call (FromKey (PRIVATE_KEY cfg));
           Log GREEN SetupOk;
           Log MAGENTA (HitMax (MAX_ITERATIONS cfg))]).
Proof.
  intros Hmax Hs.
  rewrite (run_after_setup _ _ _ _ _ _ Hs).
  assert (Hc : loop_cond cfg (loop_entry s0) = false)
    by (unfold loop_cond; apply Z.ltb_ge; cbn; lia).
  unfold bind at 1. rewrite (while_exit _ _ _ _ Hc).
  unfold_program. cbn.
  replace (0 >=? MAX_ITERATIONS cfg) with true
    by (symmetry; apply Z.geb_le; lia).
  cbn. rewrite (setup_value _ _ _ _ _ Hs). reflexivity.
Qed.
End SetupFacts.

(** The four ways in which setup fails after the version check. *)
Lemma setup_crash_names_cause_witness :
  option_map observable
    (run (Stubs.config 3) Cases.broken_transport 5 0%nat) =
    Some (Return, 0,
          [Call IsConnected; Log RED (SetupCrashed "Invalid URL")]) /\
  option_map observable (run (Stubs.config 3) Stubs.unreachable 5 0%nat) =
    Some (Return, 0,
          [Call IsConnected;
           Log RED
             (SetupCrashed "RPC connection failed. Check URL or network.")]) /\
  option_map observable (run (Stubs.config 3) Cases.bad_key 5 0%nat) =
    Some (Return, 0,
          [Call IsConnected; Call (FromKey "0x01");
           Log RED (SetupCrashed "Non-hexadecimal digit found")]) /\
  option_map observable (run (Stubs.config 3) Cases.other_account 5 0%nat) =
    Some (Return, 0,
          [Call IsConnected; Call (FromKey "0x01");
           Log RED
             (SetupCrashed "Private key and from address don’t match.")]).
Proof.
  split; [|split; [|split]].
  - apply (proj1 (setup_crash_names_cause (Stubs.config 3)
                    Cases.broken_transport 0%nat 5%nat eq_refl)
             "Invalid URL" 0%nat eq_refl).
  - apply (proj1 (proj2 (setup_crash_names_cause (Stubs.config 3)
                           Stubs.unreachable 0%nat 5%nat eq_refl))
             0%nat eq_refl).
  - apply (proj1 (proj2 (proj2 (setup_crash_names_cause (Stubs.config 3)
                                  Cases.bad_key 0%nat 5%nat eq_refl)))
             0%nat "Non-hexadecimal digit found" eq_refl eq_refl).
  - apply (proj2 (proj2 (proj2 (setup_crash_names_cause (Stubs.config 3)
                                  Cases.other_account 0%nat 5%nat eq_refl)))
             0%nat
             {| address := "0x9999000000000000000000000000000000009999" |}
             eq_refl eq_refl).
    vm_compute. discriminate.
Defined.

(** A maximum of 0 and a maximum of -2, with no fuel at all. *)
Lemma nonpositive_max_makes_no_pass_witness :
  option_map observable (run (Stubs.config 0) Stubs.healthy 0 0%nat) =
    Some (Value tt, 0,
          [Call IsConnected; Call (FromKey "0x01"); Log GREEN SetupOk;
           Log MAGENTA (HitMax 0)]) /\
  option_map observable (run (Stubs.config (-2)) Stubs.healthy 0 0%nat) =
    Some (Value tt, 0,
          [Call IsConnected; Call (FromKey "0x01"); Log GREEN SetupOk;
           Log MAGENTA (HitMax (-2))]).
Proof.
  split.
  - eapply (nonpositive_max_makes_no_pass (Stubs.config 0) Stubs.healthy
              0%nat 0%nat).
    + cbn. lia.
    + vm_compute. reflexivity.
  - eapply (nonpositive_max_makes_no_pass (Stubs.config (-2)) Stubs.healthy
              0%nat 0%nat).
    + cbn. lia.
    + vm_compute. reflexivity.
Defined.

(** ** Every finished run *)

Section RunFacts.
Variable cfg : RunConfig.
Context {W : Type}.
Variable w3 : ChainClient W.

(** What the passes of the loop preserve, the loop preserves. *)
Lemma while_preserves (P : state W -> Prop) :
  (forall s o s',
     loop_cond cfg s = true -> P s ->
     iteration_body cfg w3 s = Some (o, s') -> P s') ->
  forall fuel s o s',
    P s ->
    while fuel (loop_cond cfg) (iteration_body cfg w3) s = Some (o, s') ->
    P s'.
Proof.
  intros Hstep. induction fuel as [|fuel IH]; intros s o s' HP Hw.
  - cbn in Hw. destruct (loop_cond cfg s); [discriminate|].
    injection Hw as <- <-. exact HP.
  - cbn in Hw. destruct (loop_cond cfg s) eqn:Hc.
    + unfold bind in Hw.
      destruct (iteration_body cfg w3 s) as [[[[]|e|] s1]|] eqn:E;
        try discriminate.
      * exact (IH _ _ _ (Hstep _ _ _ Hc HP E) Hw).
      * injection Hw as <- <-. exact (Hstep _ _ _ Hc HP E).
      * injection Hw as <- <-. exact (Hstep _ _ _ Hc HP E).
    + injection Hw as <- <-. exact HP.
Qed.

(** How a finished run is made: setup returned; or the loop returned; or
    the loop ended by its condition and the summary line was added. *)
Lemma run_shapes fuel w0 o s' :
  run cfg w3 fuel w0 = Some (o, s') ->
  (o = Return /\ setup cfg w3 (initial w0) = Some (Return, s')) \/
  (exists a s0 s1,
     setup cfg w3 (initial w0) = Some (Value a, s0) /\
     loop_invariant cfg s1 /\
     ((o = Return /\ s' = s1 /\
       while fuel (loop_cond cfg) (iteration_body cfg w3) (loop_entry s0) =
         Some (Return, s1)) \/
      (o = Value tt /\
       while fuel (loop_cond cfg) (iteration_body cfg w3) (loop_entry s0) =
         Some (Value tt, s1) /\
       world s' = world s1 /\
       iteration s' = iteration s1 /\
       trace s' = trace s1 ++ [Log MAGENTA (HitMax (MAX_ITERATIONS cfg))]))).
Proof.
  intros Hrun.
  destruct (setup_outcomes cfg w3 w0) as (o0 & s0 & Hs & Ho & _).
  destruct Ho as [(a & ->) | ->].
  - right. rewrite (run_after_setup _ _ _ _ _ _ Hs) in Hrun.
    unfold bind in Hrun.
    destruct (while fuel (loop_cond cfg) (iteration_body cfg w3)
                (loop_entry s0)) as [[o1 s1]|] eqn:Hw; [|discriminate].
    destruct (while_spec cfg w3 fuel _ _ _ (invariant_entry _ _ _ _ _ Hs) Hw)
      as (Hinv & Ho1).
    exists a, s0, s1. split; [exact Hs|]. split; [exact Hinv|].
    destruct Ho1 as [-> | (-> & Hc)].
    + injection Hrun as <- <-. left. auto.
    + right. unfold loop_cond in Hc. apply Z.ltb_ge in Hc.
      unfold summary, bind, get_iteration, log, emit in Hrun.
      replace (iteration s1 >=? MAX_ITERATIONS cfg) with true in Hrun
        by (symmetry; apply Z.geb_le; lia).
      injection Hrun as <- <-. cbn. auto.
  - left. unfold run, main in Hrun. rewrite (bind_return _ _ _ _ Hs) in Hrun.
    injection Hrun as <- <-. auto.
Qed.

(** However setup ends, the counter is 0 and the trace holds configured
    calls and no event of a pass. *)
Lemma setup_shapes w0 o s0 :
  setup cfg w3 (initial w0) = Some (o, s0) ->
  iteration s0 = 0 /\
  Forall (configured_event cfg) (trace s0) /\
  count is_success (trace s0) = 0 /\
  count is_broadcast (trace s0) = 0 /\
  count is_iteration_start (trace s0) = 0.
Proof.
  unfold_program. all_cases; intros H; try discriminate H;
    injection H as <- <-; cbn;
    (split; [reflexivity|]); (split; [|auto]);
    repeat constructor.
Qed.

(** A pass keeps the counters of the trace in order. *)
Lemma counts_in_order_body s o s' :
  counts_in_order (trace s) ->
  iteration_body cfg w3 s = Some (o, s') ->
  counts_in_order (trace s').
Proof.
  intros (H1 & H2) Hb.
  destruct (iteration_body_spec cfg w3 s)
    as (o' & s'' & suf & E & _ & Ht & _ & A2 & _ & A4).
  rewrite E in Hb. injection Hb as <- <-.
  unfold counts_in_order. rewrite Ht.
  change (Log CYAN (IterationStart (iteration s + 1) (MAX_ITERATIONS cfg))
            :: suf)
    with ([Log CYAN (IterationStart (iteration s + 1) (MAX_ITERATIONS cfg))]
            ++ suf).
  rewrite !count_app.
  rewrite !count_single by reflexivity.
  change (count is_iteration_start
            [Log CYAN (IterationStart (iteration s + 1) (MAX_ITERATIONS cfg))])
    with 1.
  lia.
Qed.

(** A pass adds configured events only. *)
Lemma configured_body s o s' :
  Forall (configured_event cfg) (trace s) ->
  iteration_body cfg w3 s = Some (o, s') ->
  Forall (configured_event cfg) (trace s').
Proof.
  intros HF. unfold_program. all_cases; intros H; try discriminate H;
    injection H as <- <-; cbn [trace];
    repeat rewrite Forall_app; repeat split; try exact HF;
    repeat constructor.
Qed.

(** In every finished run the number of success lines is the counter,
    which lies between 0 and the maximum (0 for a negative maximum); no
    more successes are logged than transactions broadcast, and no more
    transactions are broadcast than passes started. *)
Theorem successes_are_bounded fuel w0 o s' :
  run cfg w3 fuel w0 = Some (o, s') ->
  count is_success (trace s') = iteration s' /\
  0 <= iteration s' <= Z.max 0 (MAX_ITERATIONS cfg) /\
  count is_success (trace s') <= count is_broadcast (trace s') /\
  count is_broadcast (trace s') <= count is_iteration_start (trace s').
Proof.
  intros Hrun.
  assert (Hnn : forall tr, 0 <= count is_success tr)
    by (intros tr; unfold count; lia).
  destruct (run_shapes _ _ _ _ Hrun)
    as [(-> & Hs) | (a & s0 & s1 & Hs & (I1 & I2 & I3) & Hcase)].
  - destruct (setup_shapes _ _ _ Hs) as (Hi & _ & C1 & C2 & C3).
    rewrite Hi, C1, C2, C3. lia.
  - destruct (setup_shapes _ _ _ Hs) as (_ & _ & C1 & C2 & C3).
    assert (Hord : counts_in_order (trace s1)).
    { assert (H0 : counts_in_order (trace (loop_entry s0)))
        by (unfold counts_in_order; cbn; lia).
      destruct Hcase as [(_ & _ & Hw) | (_ & Hw & _)];
        refine (while_preserves (fun s => counts_in_order (trace s)) _
                  fuel _ _ _ H0 Hw);
        intros s o1 s2 _ HP Hb; exact (counts_in_order_body _ _ _ HP Hb). }
    destruct Hord as (O1 & O2). specialize (Hnn (trace s1)).
    destruct Hcase as [(_ & -> & _) | (_ & _ & _ & Hi & Ht)].
    + lia.
    + rewrite Ht, Hi, !count_app. cbn. lia.
Qed.

(** In every finished run each call carries the configured values: the
    balance and the nonce are asked for the source address, the estimate
    is asked for the configured call, every transaction signed has the
    configured fields (only the nonce varies) and is signed with the
    configured key, every receipt is awaited for 300 seconds; and every
    sleep lasts the configured delay. *)
Theorem every_call_is_configured fuel w0 o s' :
  run cfg w3 fuel w0 = Some (o, s') ->
  Forall (configured_event cfg) (trace s').
Proof.
  intros Hrun.
  destruct (run_shapes _ _ _ _ Hrun)
    as [(-> & Hs) | (a & s0 & s1 & Hs & _ & Hcase)].
  - apply (setup_shapes _ _ _ Hs).
  - assert (H0 : Forall (configured_event cfg) (trace (loop_entry s0)))
      by apply (setup_shapes _ _ _ Hs).
    assert (H1 : Forall (configured_event cfg) (trace s1)).
    { destruct Hcase as [(_ & _ & Hw) | (_ & Hw & _)];
        refine (while_preserves
                  (fun s => Forall (configured_event cfg) (trace s)) _
                  fuel _ _ _ H0 Hw);
        intros s o1 s2 _ HP Hb; exact (configured_body _ _ _ HP Hb). }
    destruct Hcase as [(_ & -> & _) | (_ & _ & _ & _ & Ht)].
    + exact H1.
    + rewrite Ht. apply Forall_app. split; [exact H1|]. repeat constructor.
Qed.
End RunFacts.

(** The run whose first transaction is mined with status 0. *)
Lemma successes_are_bounded_witness :
  exists o s',
    run (Stubs.config 1) Stubs.first_reverts 3 0%nat = Some (o, s') /\
    count is_success (trace s') = iteration s' /\
    0 <= iteration s' <= 1 /\
    count is_success (trace s') <= count is_broadcast (trace s') /\
    count is_broadcast (trace s') <= count is_iteration_start (trace s').
Proof.
  destruct (run (Stubs.config 1) Stubs.first_reverts 3 0%nat)
    as [[o s']|] eqn:E.
  - exists o, s'. split; [reflexivity|].
    exact (successes_are_bounded _ _ _ _ _ _ E).
  - vm_compute in E. discriminate E.
Defined.

(** The same run. *)
Lemma every_call_is_configured_witness :
  exists o s',
    run (Stubs.config 1) Stubs.first_reverts 3 0%nat = Some (o, s') /\
    Forall (configured_event (Stubs.config 1)) (trace s').
Proof.
  destruct (run (Stubs.config 1) Stubs.first_reverts 3 0%nat)
    as [[o s']|] eqn:E.
  - exists o, s'. split; [reflexivity|].
    exact (every_call_is_configured _ _ _ _ _ _ E).
  - vm_compute in E. discriminate E.
Defined.

(** ** The order of the calls, and the pauses *)

Section OrderFacts.
Variable cfg : RunConfig.
Context {W : Type}.
Variable w3 : ChainClient W.

(** Whatever the client answers, a pass makes its calls in the order
    balance, nonce, gas estimate, signing, broadcast, receipt, each at most
    once and none before the one ahead of it: the calls of a pass are the
    first [n] of the six, for some [n] from 1 to 6. *)
Theorem pass_calls_in_order s :
  exists o s' suf n,
    iteration_body cfg w3 s = Some (o, s') /\
    trace s' = trace s ++ suf /\
    map call_rank (calls suf) = seq 2 n /\
    (1 <= n <= 6)%nat.
Proof.
  unfold_program. all_cases;
    (do 3 eexists;
     (exists 1%nat + exists 2%nat + exists 3%nat + exists 4%nat +
      exists 5%nat + exists 6%nat);
     split; [reflexivity|]; flatten_trace;
     split; [reflexivity|]; split; [reflexivity | lia]).
Qed.

(** The sleeps of a pass. *)
Lemma pass_sleeps s :
  exists o s' suf,
    iteration_body cfg w3 s = Some (o, s') /\
    trace s' = trace s ++ suf /\
    count is_sleep suf =
      match o with
      | Value _ => if iteration s' <? MAX_ITERATIONS cfg then 1 else 0
      | _ => 0
      end /\
    (count is_sleep suf = 1 ->
     exists before,
       suf = before ++ [Log WHITE (Chilling (DELAY_SECONDS cfg));
                        Sleep (DELAY_SECONDS cfg)]).
Proof.
  unfold_program. all_cases;
    (do 3 eexists; split; [reflexivity|]; flatten_trace;
     split; [reflexivity|]; cbn [iteration];
     repeat match goal with
            | E : (_ <? _) = _ |- _ => rewrite E
            end;
     split; [reflexivity|]; cbn; intros Hone;
     first [ discriminate Hone
           | match goal with
             | |- exists before, ?l = _ =>
                 exists (removelast (removelast l))
             end; reflexivity ]).
Qed.

(** A pass that leaves [main] by [return] does not sleep; a pass that
    falls through sleeps once, as its last act, exactly when the counter
    is still below the maximum. *)
Theorem pass_sleeps_only_to_go_on s :
  exists o s' suf,
    iteration_body cfg w3 s = Some (o, s') /\
    trace s' = trace s ++ suf /\
    count is_sleep suf =
      match o with
      | Value _ => if iteration s' <? MAX_ITERATIONS cfg then 1 else 0
      | _ => 0
      end /\
    (count is_sleep suf = 1 ->
     exists before,
       suf = before ++ [Log WHITE (Chilling (DELAY_SECONDS cfg));
                        Sleep (DELAY_SECONDS cfg)]).
Proof. exact (pass_sleeps s). Qed.
End OrderFacts.

Section PauseFacts.
Variable cfg : RunConfig.
Context {W : Type}.
Variable w3 : ChainClient W.
Hypothesis fine : always_succeeds cfg w3.

(** With a client all of whose operations succeed, the loop sleeps after
    every pass but the last. *)
Lemma loop_sleeps m : forall s fuel,
  iteration s + Z.of_nat m = MAX_ITERATIONS cfg ->
  (m <= fuel)%nat ->
  exists s' suf,
    while fuel (loop_cond cfg) (iteration_body cfg w3) s =
      Some (Value tt, s') /\
    iteration s' = MAX_ITERATIONS cfg /\
    trace s' = trace s ++ suf /\
    count is_sleep suf = Z.max 0 (Z.of_nat m - 1).
Proof.
  induction m as [|m IH]; intros s fuel Hi Hf.
  - exists s, []. rewrite while_exit.
    + rewrite app_nil_r. cbn. repeat split; lia.
    + unfold loop_cond. apply Z.ltb_ge. lia.
  - destruct fuel as [|fuel]; [lia|].
    destruct (pass_succeeds cfg w3 fine s)
      as (s1 & suf1 & Hb & Hi1 & Ht1 & _).
    destruct (pass_sleeps cfg w3 s) as (o & s2 & suf2 & Hb2 & Ht2 & Hsl & _).
    rewrite Hb in Hb2. injection Hb2 as <- <-.
    rewrite Ht1 in Ht2. apply app_inv_head in Ht2. subst suf2.
    destruct (IH s1 fuel) as (s' & suf & Hw & Hi' & Ht & Hsl');
      [lia | lia |].
    assert (Hc : loop_cond cfg s = true)
      by (unfold loop_cond; apply Z.ltb_lt; lia).
    exists s', (suf1 ++ suf).
    rewrite (while_next _ _ _ _ _ Hc Hb).
    rewrite Ht, Ht1, app_assoc, count_app, Hsl, Hsl'.
    repeat split; try assumption.
    destruct (Z.ltb_spec (iteration s1) (MAX_ITERATIONS cfg)); lia.
Qed.

(** With a maximum N >= 1 and a client all of whose operations succeed, a
    run that completes sleeps N - 1 times: between the passes, not after
    the last one. *)
Theorem full_run_sleeps_between_passes w0 fuel :
  1 <= MAX_ITERATIONS cfg ->
  (Z.to_nat (MAX_ITERATIONS cfg) <= fuel)%nat ->
  exists s',
    run cfg w3 fuel w0 = Some (Value tt, s') /\
    iteration s' = MAX_ITERATIONS cfg /\
    count is_sleep (trace s') = MAX_ITERATIONS cfg - 1.
Proof.
  intros HN Hf.
  destruct (setup_succeeds cfg w3 fine w0) as (a & s0 & Hs & Ht0).
  destruct (loop_sleeps (Z.to_nat (MAX_ITERATIONS cfg)) (loop_entry s0) fuel)
    as (s1 & suf & Hw & Hi & Ht & Hsl); [cbn; lia | exact Hf |].
  rewrite (run_after_setup _ _ _ _ _ _ Hs).
  rewrite (bind_value _ _ _ _ _ Hw).
  unfold_program. rewrite Hi.
  replace (MAX_ITERATIONS cfg >=? MAX_ITERATIONS cfg) with true
    by (symmetry; apply Z.geb_le; lia).
  eexists. split; [reflexivity|]. cbn [iteration trace].
  split; [exact Hi|].
  rewrite Ht. cbn [loop_entry trace]. rewrite Ht0, !count_app, Hsl.
  cbn. lia.
Qed.
End PauseFacts.

(** Three passes, two sleeps. *)
Lemma full_run_sleeps_between_passes_witness :
  always_succeeds (Stubs.config 3) Stubs.healthy /\
  exists s',
    run (Stubs.config 3) Stubs.healthy 3 0%nat = Some (Value tt, s') /\
    iteration s' = 3 /\
    count is_sleep (trace s') = 2.
Proof.
  assert (H : always_succeeds (Stubs.config 3) Stubs.healthy).
  { unfold always_succeeds. cbn.
    repeat split; intros; repeat eexists; reflexivity. }
  split; [exact H|].
  apply (full_run_sleeps_between_passes (Stubs.config 3) Stubs.healthy H
           0%nat 3%nat).
  - cbn. lia.
  - cbn. lia.
Defined.

(** ** Receipts that never succeed *)

Section RetryFacts.
Variable cfg : RunConfig.
Context {W : Type}.
Variable w3 : ChainClient W.
Hypothesis failing : every_receipt_fails cfg w3.

Lemma setup_succeeds_before_failures w0 :
  exists a s0, setup cfg w3 (initial w0) = Some (Value a, s0).
Proof.
  destruct failing as (Hv & Hc & (a & Hk & Ha) & _).
  unfold_program. rewrite Hv. cbn.
  specialize (Hc w0).
  destruct (is_connected w3 w0) as [r w] eqn:E. cbn in Hc. subst r. cbn.
  rewrite Hk. cbn. unfold str_ne. rewrite Ha, String.eqb_refl. cbn.
  do 2 eexists. reflexivity.
Qed.

(** With such a client a pass broadcasts, logs the failure and falls
    through with the counter unchanged. *)
Lemma pass_fails s :
  exists s',
    iteration_body cfg w3 s = Some (Value tt, s') /\
    iteration s' = iteration s.
Proof.
  destruct failing as (_ & _ & _ & Hbal & Hn & Hg & Hsg & Hsd & Hw).
  unfold_program. cbn.
  destruct (Hbal (world s)) as (b & q & Hb & Hq & Hlt).
  destruct (get_balance w3 (FROM_ADDRESS cfg) (world s)) as [r1 w1].
  cbn in Hb. subst r1. cbn. rewrite Hq. cbn. rewrite Hlt. cbn.
  destruct (Hn w1) as (n & Hn1).
  destruct (get_transaction_count w3 (FROM_ADDRESS cfg) w1) as [r2 w2].
  cbn in Hn1. subst r2. cbn.
  match goal with
  | |- context [estimate_gas w3 ?c w2] =>
      destruct (Hg c w2) as (g & Hg1);
      destruct (estimate_gas w3 c w2) as [r3 w4]
  end.
  cbn in Hg1. subst r3. cbn.
  destruct (g >? GAS_LIMIT cfg); cbn;
    (match goal with
     | |- context [sign_transaction w3 ?t ?k ?w] =>
         destruct (Hsg t k w) as (sg & Hsg1);
         destruct (sign_transaction w3 t k w) as [r4 w5]
     end;
     cbn in Hsg1; subst r4; cbn;
     destruct (Hsd (raw_transaction sg) w5) as (h & Hsd1);
     destruct (send_raw_transaction w3 (raw_transaction sg) w5)
       as [r5 w6];
     cbn in Hsd1; subst r5; cbn;
     destruct (Hw h 300 w6) as (rc & Hw1 & Hst);
     destruct (wait_for_transaction_receipt w3 h 300 w6) as [r6 w7];
     cbn in Hw1; subst r6; cbn;
     apply Z.eqb_neq in Hst; rewrite Hst; cbn;
     destruct (iteration s <? MAX_ITERATIONS cfg); cbn;
     eexists; split; reflexivity).
Qed.

(** With a maximum of at least 1 and a client whose operations all answer
    but whose receipts never have status 1, the run does not end: the loop
    broadcasts again and again under the same iteration number, and uses
    up any amount of fuel. *)
Theorem failing_receipts_never_end w0 fuel :
  1 <= MAX_ITERATIONS cfg ->
  run cfg w3 fuel w0 = None.
Proof.
  intros HN.
  assert (H : forall f s,
             iteration s = 0 ->
             while f (loop_cond cfg) (iteration_body cfg w3) s = None).
  { induction f as [|f IH]; intros s Hi.
    - cbn. unfold loop_cond. rewrite Hi.
      replace (0 <? MAX_ITERATIONS cfg) with true
        by (symmetry; apply Z.ltb_lt; lia).
      reflexivity.
    - destruct (pass_fails s) as (s' & Hb & Hi').
      assert (Hc : loop_cond cfg s = true)
        by (unfold loop_cond; apply Z.ltb_lt; lia).
      rewrite (while_next _ _ _ _ _ Hc Hb). apply IH. lia. }
  destruct (setup_succeeds_before_failures w0) as (a & s0 & Hs).
  rewrite (run_after_setup _ _ _ _ _ _ Hs). unfold bind.
  rewrite H; reflexivity.
Qed.
End RetryFacts.

(** Every receipt of status 0, under a maximum of 1, with fuel for a
    thousand passes. *)
Lemma failing_receipts_never_end_witness :
  every_receipt_fails (Stubs.config 1) Stubs.always_reverts /\
  run (Stubs.config 1) Stubs.always_reverts 1000 0%nat = None.
Proof.
  assert (H : every_receipt_fails (Stubs.config 1) Stubs.always_reverts).
  { unfold every_receipt_fails. cbn.
    repeat split; intros; repeat eexists; first [reflexivity | discriminate]. }
  split; [exact H|].
  apply (failing_receipts_never_end (Stubs.config 1) Stubs.always_reverts H
           0%nat 1000%nat).
  cbn. lia.
Defined.

(** The balance query raises in the first pass: the nonce is fetched all
    the same. *)
Lemma balance_error_falls_through_witness :
  exists o s' rest,
    iteration_body (Stubs.config 1) Stubs.balance_outage
      Cases.balance_outage_first_pass = Some (o, s') /\
    trace s' =
      trace Cases.balance_outage_first_pass ++
      Log CYAN (IterationStart 1 1)
      :: Call (GetBalance "0xabcd000000000000000000000000000000001234")
      :: Log RED (BalanceCheckFailed "502 Server Error")
      :: Call (GetTransactionCount
                 "0xabcd000000000000000000000000000000001234")
      :: rest.
Proof.
  apply (balance_error_falls_through (Stubs.config 1) Stubs.balance_outage
           Cases.balance_outage_first_pass "502 Server Error" 1%nat).
  reflexivity.
Defined.

(** ** The version check *)

(** A digit has a code from 48 to 57. *)
Lemma digit_value_inv c d :
  digit_value c = Some d ->
  (48 <= N_of_ascii c <= 57)%N /\ d = (N_of_ascii c - 48)%N.
Proof.
  unfold digit_value.
  destruct (N.leb_spec 48 (N_of_ascii c)); cbn; [|discriminate].
  destruct (N.leb_spec (N_of_ascii c) 57); cbn; [|discriminate].
  intros Heq. injection Heq as <-. lia.
Qed.

(** The field being read can only grow. *)
Lemma version_fields_head s : forall n x rest,
  version_fields (Some n) s = Some (x :: rest) -> (n <= x)%N.
Proof.
  induction s as [|c s IH]; intros n x rest H; cbn [version_fields] in H.
  - injection H as <- _. lia.
  - destruct (Ascii.eqb c ".").
    + destruct (version_fields None s); [|discriminate].
      injection H as <- _. lia.
    + destruct (digit_value c) as [d|]; [|discriminate].
      apply IH in H. lia.
Qed.

Lemma compare_chars a b :
  Ascii.compare a b = N.compare (N_of_ascii a) (N_of_ascii b).
Proof. reflexivity. Qed.

(** The check of line 40 lets no older release through: a version of
    three numeric fields that is not below "6.0.0" as a string is, as a
    number, at least 6.0.0. *)
Theorem accepted_version_is_not_older v a b c :
  version_tuple v = Some [a; b; c] ->
  str_lt v "6.0.0" = false ->
  numerically_at_least v [6; 0; 0]%N = true.
Proof.
  intros Ht Hlt. unfold numerically_at_least. rewrite Ht.
  assert (Ha : (6 <= a)%N).
  { destruct v as [|ch v1]; [discriminate Ht|].
    unfold version_tuple in Ht. cbn [version_fields] in Ht.
    destruct (Ascii.eqb ch "."); [discriminate Ht|].
    destruct (digit_value ch) as [d|] eqn:Hd; [|discriminate Ht].
    apply digit_value_inv in Hd. destruct Hd as (Hr & ->).
    apply version_fields_head in Ht.
    unfold str_lt, String.ltb in Hlt. cbn [String.compare] in Hlt.
    rewrite compare_chars in Hlt.
    change (N_of_ascii "6") with 54%N in Hlt.
    destruct (N.compare_spec (N_of_ascii ch) 54) as [E|E|E].
    - lia.
    - discriminate Hlt.
    - lia. }
  cbn [tuple_leb].
  destruct (N.ltb_spec 6 a); [reflexivity|].
  destruct (N.eqb_spec 6 a); [|lia].
  destruct (N.ltb_spec 0 b); [reflexivity|].
  destruct (N.eqb_spec 0 b); [|lia].
  destruct (N.ltb_spec 0 c); [reflexivity|].
  destruct (N.eqb_spec 0 c); [reflexivity|lia].
Qed.

Lemma char_of_code x n : N_of_ascii x = n -> x = ascii_of_N n.
Proof. intros <-. symmetry. apply ascii_N_embedding. Qed.

Lemma digit_above_dot x d :
  digit_value x = Some d -> Ascii.compare x "." = Gt.
Proof.
  intros H. apply digit_value_inv in H. rewrite compare_chars.
  change (N_of_ascii ".") with 46%N. apply N.compare_gt_iff. lia.
Qed.

Lemma digit_vs_zero x d :
  digit_value x = Some d ->
  (x = "0"%char /\ d = 0%N) \/ Ascii.compare x "0" = Gt.
Proof.
  intros H. apply digit_value_inv in H. destruct H as (Hr & ->).
  rewrite compare_chars. change (N_of_ascii "0") with 48%N.
  destruct (N.compare_spec (N_of_ascii x) 48) as [E|E|E].
  - left. split; [exact (char_of_code _ _ E) | lia].
  - lia.
  - right. reflexivity.
Qed.

(** The check of line 40 is right for the major versions written with a
    first digit from 6 to 9: such a version that is numerically at least
    6.0.0 is not below "6.0.0" as a string, so [setup_web3] does not reject
    it. *)
Theorem newer_version_is_accepted ch rest :
  (54 <= N_of_ascii ch <= 57)%N ->
  numerically_at_least (String ch rest) [6; 0; 0]%N = true ->
  str_lt (String ch rest) "6.0.0" = false.
Proof.
  intros Hch H. unfold str_lt, String.ltb. cbn [String.compare].
  rewrite compare_chars. change (N_of_ascii "6") with 54%N.
  destruct (N.compare_spec (N_of_ascii ch) 54) as [E|E|E];
    [|lia|reflexivity].
  apply char_of_code in E. change (ascii_of_N 54) with "6"%char in E.
  subst ch. unfold numerically_at_least, version_tuple in H.
  cbn [version_fields] in H.
  change (Ascii.eqb "6" ".") with false in H.
  change (digit_value "6") with (Some 6%N) in H. cbv beta iota in H.
  change (10 * 0 + 6)%N with 6%N in H.
  (* after "6" *)
  destruct rest as [|x r2]; [discriminate H|].
  cbn [version_fields String.compare] in *.
  destruct (Ascii.eqb_spec x ".") as [->|Hx].
  2:{ destruct (digit_value x) as [d|] eqn:Hd; [|discriminate H].
      rewrite (digit_above_dot _ _ Hd). reflexivity. }
  change (Ascii.compare "." ".") with Eq. cbv iota.
  (* after "6." *)
  destruct r2 as [|y r3]; [discriminate H|].
  cbn [version_fields String.compare] in *.
  destruct (Ascii.eqb_spec y ".") as [->|Hy]; [discriminate H|].
  destruct (digit_value y) as [d|] eqn:Hd; [|discriminate H].
  destruct (digit_vs_zero _ _ Hd) as [(-> & ->)|Hgt];
    [|rewrite Hgt; reflexivity].
  change (Ascii.compare "0" "0") with Eq. cbv iota.
  change (10 * 0 + 0)%N with 0%N in H.
  (* after "6.0" *)
  destruct r3 as [|z r4]; [discriminate H|].
  cbn [version_fields String.compare] in *.
  destruct (Ascii.eqb_spec z ".") as [->|Hz].
  2:{ destruct (digit_value z) as [d2|] eqn:Hd2; [|discriminate H].
      rewrite (digit_above_dot _ _ Hd2). reflexivity. }
  change (Ascii.compare "." ".") with Eq. cbv iota.
  (* after "6.0." *)
  destruct r4 as [|u r5].
  { cbn in H. discriminate H. }
  cbn [version_fields String.compare] in *.
  destruct (Ascii.eqb_spec u ".") as [->|Hu].
  { discriminate H. }
  destruct (digit_value u) as [d3|] eqn:Hd3.
  2:{ discriminate H. }
  destruct (digit_vs_zero _ _ Hd3) as [(-> & ->)|Hgt];
    [|rewrite Hgt; reflexivity].
  change (Ascii.compare "0" "0") with Eq. cbv iota.
  destruct r5; reflexivity.
Qed.

(** web3.py 6.11.3 passes the check and is newer than 6.0.0. *)
Lemma accepted_version_is_not_older_witness :
  version_tuple "6.11.3" = Some [6; 11; 3]%N /\
  str_lt "6.11.3" "6.0.0" = false /\
  numerically_at_least "6.11.3" [6; 0; 0]%N = true.
Proof.
  split; [reflexivity|]. split; [reflexivity|].
  apply (accepted_version_is_not_older "6.11.3" 6%N 11%N 3%N);
    reflexivity.
Defined.

(** web3.py 7.12.0 is newer than 6.0.0 and passes the check. *)
Lemma newer_version_is_accepted_witness :
  numerically_at_least "7.12.0" [6; 0; 0]%N = true /\
  str_lt "7.12.0" "6.0.0" = false.
Proof.
  split; [reflexivity|].
  apply (newer_version_is_accepted "7"%char "12.0").
  - cbn. lia.
  - reflexivity.
Defined.

(** ** Numbers, successes and stops *)

Lemma count_cons p (ev : event) tr :
  count p (ev :: tr) = (if p ev then 1 else 0) + count p tr.
Proof. unfold count. cbn. destruct (p ev); cbn [List.length]; lia. Qed.

Lemma numbered_app cfg tr1 : forall done tr2,
  numbered cfg done (tr1 ++ tr2) <->
  numbered cfg done tr1 /\
  numbered cfg (done + count is_success tr1) tr2.
Proof.
  induction tr1 as [|ev tr1 IH]; intros done tr2.
  - cbn. replace (done + 0) with done by lia. tauto.
  - rewrite count_cons.
    destruct ev as [c m| |]; [destruct m|..]; cbn [numbered is_success app];
      rewrite ?IH, ?Z.add_0_l, ?Z.add_assoc; tauto.
Qed.

Section NumberFacts.
Variable cfg : RunConfig.
Context {W : Type}.
Variable w3 : ChainClient W.

(** No block of a pass before the send block touches the counter. *)
Lemma upto_sign_tx_keeps_counter s o s1 :
  upto_sign_tx cfg w3 s = Some (o, s1) -> iteration s1 = iteration s.
Proof.
  unfold_program. all_cases; intros H; try discriminate H;
    injection H as <- <-; reflexivity.
Qed.

(** A pass numbers itself by the successes so far. *)
Lemma numbered_body s o s' :
  numbered cfg 0 (trace s) ->
  count is_success (trace s) = iteration s ->
  iteration_body cfg w3 s = Some (o, s') ->
  numbered cfg 0 (trace s').
Proof.
  intros HN HC. unfold_program. all_cases; intros H; try discriminate H;
    injection H as <- <-; flatten_trace;
    apply numbered_app; (split; [exact HN|]);
    rewrite HC; cbn; repeat split; lia.
Qed.

Lemma setup_numbered w0 o s0 :
  setup cfg w3 (initial w0) = Some (o, s0) -> numbered cfg 0 (trace s0).
Proof.
  unfold_program. all_cases; intros H; try discriminate H;
    injection H as <- <-; cbn; exact I.
Qed.

(** A pass that ends by [return] ends on a stop line. *)
Lemma returning_body s s' :
  iteration_body cfg w3 s = Some (Return, s') ->
  exists tr ev, trace s' = tr ++ [ev] /\ is_stop_line ev = true.
Proof.
  unfold_program. all_cases; intros H; try discriminate H;
    injection H as <-; do 2 eexists; split; reflexivity.
Qed.

Lemma returning_while fuel : forall s s',
  while fuel (loop_cond cfg) (iteration_body cfg w3) s = Some (Return, s') ->
  exists s1, iteration_body cfg w3 s1 = Some (Return, s').
Proof.
  induction fuel as [|fuel IH]; intros s s' Hw; cbn in Hw.
  - destruct (loop_cond cfg s); discriminate.
  - destruct (loop_cond cfg s); [|discriminate].
    unfold bind in Hw.
    destruct (iteration_body cfg w3 s) as [[[[]|e|] s1]|] eqn:E;
      try discriminate.
    + exact (IH _ _ Hw).
    + injection Hw as <-. exists s. exact E.
Qed.

(** In every finished run each iteration line reads one more than the
    number of successes logged before it, out of the configured maximum:
    the numbers never skip and never go back, and a number is repeated
    exactly when the pass before logged no success. *)
Theorem iteration_numbers_follow_successes fuel w0 o s' :
  run cfg w3 fuel w0 = Some (o, s') ->
  numbered cfg 0 (trace s').
Proof.
  intros Hrun.
  destruct (run_shapes _ _ _ _ _ _ Hrun)
    as [(-> & Hs) | (a & s0 & s1 & Hs & _ & Hcase)].
  - exact (setup_numbered _ _ _ Hs).
  - assert (H1 : loop_invariant cfg s1 /\ numbered cfg 0 (trace s1)).
    { assert (H0 : loop_invariant cfg (loop_entry s0) /\
                   numbered cfg 0 (trace (loop_entry s0)))
        by (split; [exact (invariant_entry _ _ _ _ _ Hs)
                   | exact (setup_numbered _ _ _ Hs)]).
      destruct Hcase as [(_ & _ & Hw) | (_ & Hw & _)];
        refine (while_preserves cfg w3
                  (fun s => loop_invariant cfg s /\ numbered cfg 0 (trace s))
                  _ fuel _ _ _ H0 Hw);
        intros s o1 s2 Hc (Hinv & HN) Hb;
        (split; [exact (invariant_body _ _ _ _ _ Hinv Hc Hb)|]);
        exact (numbered_body _ _ _ HN (proj1 (proj2 Hinv)) Hb). }
    destruct H1 as (_ & HN).
    destruct Hcase as [(_ & -> & _) | (_ & _ & _ & _ & Ht)].
    + exact HN.
    + rewrite Ht. apply numbered_app. split; [exact HN | exact I].
Qed.

(** A run that ends by [return] ends on the line that tells why: its last
    event is one of the stop lines, never a success, a pause or a call. *)
Theorem early_return_is_explained fuel w0 s' :
  run cfg w3 fuel w0 = Some (Return, s') ->
  exists tr ev, trace s' = tr ++ [ev] /\ is_stop_line ev = true.
Proof.
  intros Hrun.
  destruct (run_shapes _ _ _ _ _ _ Hrun)
    as [(_ & Hs) | (a & s0 & s1 & Hs & _ & Hcase)].
  - revert Hs. unfold_program. all_cases; intros H; try discriminate H;
      injection H as <-; cbn [trace];
      match goal with
      | |- exists tr ev, ?l = _ /\ _ =>
          exists (removelast l), (last l (Call IsConnected))
      end; split; reflexivity.
  - destruct Hcase as [(_ & -> & Hw) | (Ho & _)]; [|discriminate Ho].
    destruct (returning_while _ _ _ Hw) as (s2 & Hb).
    exact (returning_body _ _ Hb).
Qed.

(** The counter moves only on a receipt of status 1: a pass that leaves
    the counter one higher has signed, broadcast, and been answered a
    receipt whose status is 1; any other pass leaves the counter as it
    was. *)
Theorem success_needs_good_receipt s o s' :
  iteration_body cfg w3 s = Some (o, s') ->
  iteration s' = iteration s \/
  (iteration s' = iteration s + 1 /\
   exists sg s1 h w rc w',
     upto_sign_tx cfg w3 s = Some (Value sg, s1) /\
     send_raw_transaction w3 (raw_transaction sg) (world s1) = (Ok h, w) /\
     wait_for_transaction_receipt w3 h 300 w = (Ok rc, w') /\
     status rc = 1).
Proof.
  rewrite iteration_body_split. unfold bind at 1.
  destruct (upto_sign_tx cfg w3 s) as [[[sg|e|] s1]|] eqn:Hp;
    try discriminate.
  - pose proof (upto_sign_tx_keeps_counter _ _ _ Hp) as Hi.
    unfold_program.
    destruct (send_raw_transaction w3 (raw_transaction sg) (world s1))
      as [[h|e] w] eqn:Hs; cbn.
    + destruct (wait_for_transaction_receipt w3 h 300 w)
        as [[rc|e] w'] eqn:Hw; cbn.
      * destruct (status rc =? 1) eqn:Hst; cbn.
        -- apply Z.eqb_eq in Hst.
           destruct (iteration s1 + 1 <? MAX_ITERATIONS cfg); cbn;
             intros H; injection H as <- <-; right; cbn;
             (split; [lia|]); exists sg, s1, h, w, rc, w'; auto.
        -- destruct (iteration s1 <? MAX_ITERATIONS cfg); cbn;
             intros H; injection H as <- <-; left; cbn; lia.
      * intros H. injection H as <- <-. left. cbn. lia.
    + intros H. injection H as <- <-. left. cbn. lia.
  - intros H. injection H as <- <-. left.
    exact (upto_sign_tx_keeps_counter _ _ _ Hp).
  - intros H. injection H as <- <-. left.
    exact (upto_sign_tx_keeps_counter _ _ _ Hp).
Qed.
End NumberFacts.

(** The run whose first transaction is mined with status 0: the number 1
    is logged twice. *)
Lemma iteration_numbers_follow_successes_witness :
  exists o s',
    run (Stubs.config 1) Stubs.first_reverts 3 0%nat = Some (o, s') /\
    numbered (Stubs.config 1) 0 (trace s').
Proof.
  destruct (run (Stubs.config 1) Stubs.first_reverts 3 0%nat)
    as [[o s']|] eqn:E.
  - exists o, s'. split; [reflexivity|].
    exact (iteration_numbers_follow_successes _ _ _ _ _ _ E).
  - vm_compute in E. discriminate E.
Defined.

(** The run that finds the balance too low in its second pass. *)
Lemma early_return_is_explained_witness :
  exists s',
    run (Stubs.config 3) Stubs.runs_dry 5 0%nat = Some (Return, s') /\
    exists tr ev, trace s' = tr ++ [ev] /\ is_stop_line ev = true.
Proof.
  destruct (run (Stubs.config 3) Stubs.runs_dry 5 0%nat)
    as [[[[]|e|] s']|] eqn:E;
    try (vm_compute in E; discriminate E).
  exists s'. split; [reflexivity|].
  exact (early_return_is_explained _ _ _ _ _ E).
Defined.

(** A first pass whose receipt has status 1. *)
Lemma success_needs_good_receipt_witness :
  exists o s',
    iteration_body (Stubs.config 3) Cases.at_limit
      Cases.at_limit_first_pass = Some (o, s') /\
    (iteration s' = iteration Cases.at_limit_first_pass \/
     (iteration s' = iteration Cases.at_limit_first_pass + 1 /\
      exists sg s1 h w rc w',
        upto_sign_tx (Stubs.config 3) Cases.at_limit
          Cases.at_limit_first_pass = Some (Value sg, s1) /\
        send_raw_transaction Cases.at_limit (raw_transaction sg) (world s1) =
          (Ok h, w) /\
        wait_for_transaction_receipt Cases.at_limit h 300 w = (Ok rc, w') /\
        status rc = 1)).
Proof.
  destruct (iteration_body (Stubs.config 3) Cases.at_limit
              Cases.at_limit_first_pass) as [[o s']|] eqn:E.
  - exists o, s'. split; [reflexivity|].
    exact (success_needs_good_receipt _ _ _ _ _ E).
  - vm_compute in E. discriminate E.
Defined.

(** The first transaction is mined with status 0 under a maximum of 1: the
    pass falls through and the loop condition still holds. *)
Lemma failed_receipt_falls_through_witness :
  exists sg s1 s',
    upto_sign_tx (Stubs.config 1) Stubs.first_reverts
      Cases.first_reverts_first_pass = Some (Value sg, s1) /\
    iteration_body (Stubs.config 1) Stubs.first_reverts
      Cases.first_reverts_first_pass = Some (Value tt, s') /\
    iteration s' = 0 /\
    loop_cond (Stubs.config 1) s' = true.
Proof.
  do 2 eexists.
  assert (Hp : upto_sign_tx (Stubs.config 1) Stubs.first_reverts
                 Cases.first_reverts_first_pass = Some (Value _, _))
    by (vm_compute; reflexivity).
  destruct (failed_receipt_falls_through (Stubs.config 1) Stubs.first_reverts
              Cases.first_reverts_first_pass _ _ "0xabcd" 1%nat
              {| blockNumber := 1001; status := 0 |} 1%nat
              eq_refl Hp eq_refl eq_refl)
    as (s' & Hb & Hi & Hc & _).
  - cbn. discriminate.
  - exists s'. split; [exact Hp|]. split; [exact Hb|].
    split; [exact Hi | exact Hc].
Defined.

(** ** Floats *)

(** The fixture's two [float] fields hold values of a [float]. *)
Lemma config_floats n :
  is_float (MIN_BALANCE_SOMI (Stubs.config n)) /\
  is_float (DELAY_SECONDS (Stubs.config n)).
Proof.
  split.
  - exists 1, (-1). repeat split; try reflexivity; discriminate.
  - exists 1, 1. repeat split; try reflexivity; discriminate.
Qed.

(** A minimum written 0.1 in the environment is the float just above one
    tenth: a balance of exactly 0.1 ether is below it, and the test of
    line 67 stops the run. *)
Lemma tenth_is_below_float_tenth :
  is_float Cases.float_tenth /\
  Stubs.ether 100000000000000000 =
    Ok (100000000000000000 # 1000000000000000000) /\
  Qltb (100000000000000000 # 1000000000000000000) Cases.float_tenth = true.
Proof.
  split; [|split; reflexivity].
  exists 3602879701896397, (-55).
  repeat split; try reflexivity; discriminate.
Qed.

(** ** A low balance after a failed receipt *)

(** C5.  The first transaction of a run with a maximum of 3 is mined with
    status 0 and, in the second pass, the balance is below the minimum.
    The failed receipt does not end the run (the branch at line 122 has no
    [return]), so the low balance is met in a second pass that the program
    again logs as iteration 1: the run stops there gracefully, but after a
    transaction was built, signed and broadcast, and with no success
    counted. *)
Theorem low_balance_after_failed_receipt :
  option_map observable
    (run (Stubs.config 3) Cases.reverts_then_dry 5 0%nat) =
  Some
    (Return, 0,
     [Call IsConnected;
      Call (FromKey "0x01");
      Log GREEN SetupOk;
      Log CYAN (IterationStart 1 3);
      Call (GetBalance "0xabcd000000000000000000000000000000001234");
      Log WHITE (BalanceOk (5000000000000000000 # 1000000000000000000));
      Call (GetTransactionCount "0xabcd000000000000000000000000000000001234");
      Call (EstimateGas Stubs.gas_call);
      Call (SignTransaction (Stubs.tx 0) "0x01");
      Call (SendRawTransaction "0x02f8");
      Log GREEN (TxSent "0xabcd");
      Call (WaitForTransactionReceipt "0xabcd" 300);
      Log CYAN (Mined 1001);
      Log RED TxFailed;
      Log WHITE (Chilling (2 # 1));
      Sleep (2 # 1);
      Log CYAN (IterationStart 1 3);
      Call (GetBalance "0xabcd000000000000000000000000000000001234");
      Log YELLOW
        (LowBalance (50000000000000000 # 1000000000000000000) (1 # 2))]).
Proof. vm_compute. reflexivity. Qed.
